(** * Compras, Vendas e Lucro: a shallow embedding of [app.py]

    The program keeps two SQLite tables, [purchases] and [sales], and
    derives a monthly profit report from them.  The embedding follows the
    source statement by statement:

    - a table is the list of its rows together with its AUTOINCREMENT
      counter; the form handlers pass the database explicitly;
    - SQL [NULL] is [None]; [SUM], [NULLIF] and [/] propagate it the way
      SQLite does;
    - [REAL] columns and Python floats are exact rationals ([Q], compared
      with [==]); the one place where the program leaves the finite
      numbers, the division of the margin column, is modelled with the
      IEEE results of a division by zero (see [float]);
    - [INTEGER] columns are unbounded integers ([Z]);
    - [TEXT] dates are ISO strings compared byte-wise, as SQLite does;
      [compare_iso] shows that this is the calendar order. *)

From Stdlib Require Import ZArith QArith Qminmax Bool List String Ascii.
From Stdlib Require Import Lia Lqa Permutation Sorted Setoid.
Import ListNotations.

Local Open Scope Z_scope.
Local Open Scope Q_scope.

(** ** Rows of the two tables ([init_db]) *)

Module Purchase.
(** [CREATE TABLE purchases]: [name] is the only nullable column. *)
Record row : Type := mk {
  id : Z;
  date : string;
  sku : string;
  name : option string;
  unit_cost : Q;
  quantity : Z
}.
End Purchase.

Module Sale.
(** [CREATE TABLE sales]: [name] and [marketplace] are nullable. *)
Record row : Type := mk {
  id : Z;
  date : string;
  sku : string;
  name : option string;
  unit_price : Q;
  quantity : Z;
  marketplace : option string
}.
End Sale.

(** A table with an [INTEGER PRIMARY KEY AUTOINCREMENT] column: its rows in
    insertion order and the counter SQLite keeps in [sqlite_sequence]. *)
Record table (A : Type) : Type := mkTable {
  rows : list A;
  seq : Z
}.
Arguments mkTable {A} _ _.
Arguments rows {A} _.
Arguments seq {A} _.

Record db : Type := mkDb {
  purchases : table Purchase.row;
  sales : table Sale.row
}.

(** [init_db] on a fresh file: both tables exist and are empty. *)
Definition init_db : db :=
  mkDb (mkTable [] 0%Z) (mkTable [] 0%Z).

(** The identifier AUTOINCREMENT gives the next row: one more than the
    largest identifier the table has ever held. *)
Definition max_id {A : Type} (id : A -> Z) (l : list A) : Z :=
  fold_right (fun r m => Z.max (id r) m) 0%Z l.

Definition next_id {A : Type} (id : A -> Z) (t : table A) : Z :=
  (Z.max (seq t) (max_id id (rows t)) + 1)%Z.

Definition insert_row {A : Type} (id : A -> Z) (mkrow : Z -> A) (t : table A)
  : table A :=
  let i := next_id id t in
  mkTable (rows t ++ [mkrow i]) i.

(** [DELETE FROM t WHERE id = ?] *)
Definition delete_row {A : Type} (id : A -> Z) (del_id : Z) (t : table A)
  : table A :=
  mkTable (filter (fun r => negb (id r =? del_id)%Z) (rows t)) (seq t).

(** ** SQL expressions with NULL *)

(** [SUM] over a REAL expression; NULL when no row is selected. *)
Fixpoint total (l : list Q) : Q :=
  match l with
  | [] => 0
  | x :: t => x + total t
  end.

Definition SUM (l : list Q) : option Q :=
  match l with
  | [] => None
  | _ => Some (total l)
  end.

(** [SUM] over an INTEGER column. *)
Fixpoint total_int (l : list Z) : Z :=
  match l with
  | [] => 0%Z
  | x :: t => (x + total_int t)%Z
  end.

Definition SUM_int (l : list Z) : option Z :=
  match l with
  | [] => None
  | _ => Some (total_int l)
  end.

(** [NULLIF(x, y)]: NULL when [x = y], otherwise [x]. *)
Definition NULLIF (x : option Z) (y : Z) : option Z :=
  match x with
  | Some v => if (v =? y)%Z then None else Some v
  | None => None
  end.

(** [x * y] on REAL operands. *)
Definition sql_mul (x y : option Q) : option Q :=
  match x, y with
  | Some a, Some b => Some (a * b)
  | _, _ => None
  end.

(** [x / y] with a REAL numerator and an INTEGER denominator; SQLite
    answers NULL for a NULL operand and for a zero denominator. *)
Definition sql_div (x : option Q) (y : option Z) : option Q :=
  match x, y with
  | Some a, Some b => if (b =? 0)%Z then None else Some (a / inject_Z b)
  | _, _ => None
  end.

(** ** The cost engine *)

(** [WHERE sku = ? AND date <= ?] of [get_avg_cost_until]. *)
Definition where_sku_until (sku until_iso : string) (r : Purchase.row) : bool :=
  (Purchase.sku r =? sku)%string && String.leb (Purchase.date r) until_iso.

(** [get_avg_cost_until(sku, until_iso)]: the single row the aggregate
    query returns, and Python's [None] when its only column is NULL. *)
Definition get_avg_cost_until
  (purchases : list Purchase.row) (sku until_iso : string) : option Q :=
  let selected := filter (where_sku_until sku until_iso) purchases in
  let row0 :=
    sql_div
      (sql_mul
         (SUM (map (fun r => Purchase.unit_cost r * inject_Z (Purchase.quantity r))
                   selected))
         (Some 1.0))
      (NULLIF (SUM_int (map Purchase.quantity selected)) 0%Z) in
  match row0 with
  | Some v => Some v
  | None => None
  end.

(** ** Dates and strings *)

(** Python's [datetime.date]; its years range over 1..9999. *)
Record date : Type := mkDate {
  year : Z;
  month : Z;
  day : Z
}.

Definition digit (n : Z) : ascii :=
  ascii_of_N (Z.to_N (48 + n mod 10)).

Definition pad2 (n : Z) : string :=
  String (digit (n / 10)) (String (digit n) EmptyString).

Definition pad4 (n : Z) : string :=
  String (digit (n / 1000)) (String (digit (n / 100)) (pad2 n)).

(** [iso(d)], that is [d.isoformat()]: ["YYYY-MM-DD"]. *)
Definition iso (d : date) : string :=
  (pad4 (year d) ++ "-" ++ pad2 (month d) ++ "-" ++ pad2 (day d))%string.

(** [date(y, m, 1)] of the month of [d], and of the month after it. *)
Definition month_start (d : date) : date :=
  mkDate (year d) (month d) 1.

Definition next_month (d : date) : date :=
  mkDate (year d + (if (month d =? 12)%Z then 1 else 0))%Z
         (if (month d =? 12)%Z then 1 else month d + 1)%Z
         1.

(** The ASCII characters [str.strip] removes (the text inputs are modelled
    as byte strings, so only the one-byte white space is covered). *)
Definition isspace (c : ascii) : bool :=
  let n := N_of_ascii c in
  ((9 <=? n) && (n <=? 13) || (28 <=? n) && (n <=? 32))%N.

Fixpoint lstrip (s : string) : string :=
  match s with
  | EmptyString => EmptyString
  | String c t => if isspace c then lstrip t else s
  end.

Fixpoint rstrip (s : string) : string :=
  match s with
  | EmptyString => EmptyString
  | String c t =>
      match rstrip t with
      | EmptyString => if isspace c then EmptyString else String c EmptyString
      | t' => String c t'
      end
  end.

Definition strip (s : string) : string := rstrip (lstrip s).

(** [COALESCE(name, '')] *)
Definition COALESCE (x : option string) (dflt : string) : string :=
  match x with
  | Some s => s
  | None => dflt
  end.

(** [ORDER BY]: a stable insertion sort under a total preorder. *)
Fixpoint insert_by {A : Type} (le : A -> A -> bool) (x : A) (l : list A)
  : list A :=
  match l with
  | [] => [x]
  | y :: t => if le x y then x :: l else y :: insert_by le x t
  end.

Fixpoint order_by {A : Type} (le : A -> A -> bool) (l : list A) : list A :=
  match l with
  | [] => []
  | x :: t => insert_by le x (order_by le t)
  end.

(** [WHERE date >= ? AND date < ?] *)
Definition between (start_iso end_iso d : string) : bool :=
  String.leb start_iso d && String.ltb d end_iso.

(** [ORDER BY date DESC, id DESC] on a (date, id) key. *)
Definition date_id_desc (d1 : string) (i1 : Z) (d2 : string) (i2 : Z) : bool :=
  String.ltb d2 d1 || ((d1 =? d2)%string && (i2 <=? i1)%Z).

(** ** What the page shows after an action *)

Inductive feedback : Type :=
| warning (msg : string)
| success (msg : string)
| info (msg : string).

(** ** Tab "Compras do mes" ([aba1]) *)

Module FormCompras.
(** The values of the widgets of [form_compras] at submission.  The
    number inputs are created with [min_value=0.0] (cost) and
    [min_value=1] (quantity); see [in_range]. *)
Record t : Type := mk {
  d : date;
  sku : string;
  nome : string;
  custo_unit : Q;
  qtd : Z
}.

Definition in_range (f : t) : Prop :=
  0 <= custo_unit f /\ (1 <= qtd f)%Z.
End FormCompras.

(** The body of [if enviar:] in [aba1]. *)
Definition salvar_compra (st : db) (f : FormCompras.t) : db * feedback :=
  if (FormCompras.sku f =? "")%string then
    (st, warning "Informe o SKU/Código.")
  else if Qle_bool (FormCompras.custo_unit f) 0 then
    (st, warning "Informe o custo unitário.")
  else
    (mkDb (insert_row Purchase.id
             (fun i => Purchase.mk i (iso (FormCompras.d f))
                         (strip (FormCompras.sku f))
                         (Some (strip (FormCompras.nome f)))
                         (FormCompras.custo_unit f)
                         (FormCompras.qtd f))
             (purchases st))
          (sales st),
     success "Compra registrada!").

Module Compra.
(** A row of [dfc], with its computed column [total_compra]. *)
Record row : Type := mk {
  id : Z;
  data : string;
  sku : string;
  nome : string;
  custo_unit : Q;
  qtd : Z;
  total_compra : Q
}.

Definition select (r : Purchase.row) : row :=
  mk (Purchase.id r) (Purchase.date r) (Purchase.sku r)
     (COALESCE (Purchase.name r) "")
     (Purchase.unit_cost r) (Purchase.quantity r)
     (Purchase.unit_cost r * inject_Z (Purchase.quantity r)).
End Compra.

(** The listing of the current month in [aba1]. *)
Definition compras_do_mes (st : db) (today : date) : list Compra.row :=
  let first_day := iso (month_start today) in
  let last_day := iso (next_month today) in
  map Compra.select
    (order_by
       (fun r1 r2 => date_id_desc (Purchase.date r1) (Purchase.id r1)
                                  (Purchase.date r2) (Purchase.id r2))
       (filter (fun r => between first_day last_day (Purchase.date r))
               (rows (purchases st)))).

(** The body of [if st.button("Excluir compra selecionada"):].  The page
    offers the button only while the listing above is not empty. *)
Definition excluir_compra (st : db) (del_id : Z) : db * feedback :=
  (mkDb (delete_row Purchase.id del_id (purchases st)) (sales st),
   success "Compra excluída.").

(** ** Tab "Vendas do mes" ([aba2]) *)

Module FormVendas.
(** The values of the widgets of [form_vendas] at submission; [market]
    comes from a select box over Shopee, Mercado Livre and Outros. *)
Record t : Type := mk {
  d : date;
  sku_v : string;
  nome_v : string;
  preco_unit : Q;
  qtd_v : Z;
  market : string
}.

Definition in_range (f : t) : Prop :=
  0 <= preco_unit f /\ (1 <= qtd_v f)%Z /\
  In (market f) ["Shopee"; "Mercado Livre"; "Outros"]%string.
End FormVendas.

(** The body of [if enviar_v:] in [aba2]. *)
Definition salvar_venda (st : db) (f : FormVendas.t) : db * feedback :=
  if (FormVendas.sku_v f =? "")%string then
    (st, warning "Informe o SKU/Código.")
  else if Qle_bool (FormVendas.preco_unit f) 0 then
    (st, warning "Informe o preço de venda.")
  else
    (mkDb (purchases st)
          (insert_row Sale.id
             (fun i => Sale.mk i (iso (FormVendas.d f))
                         (strip (FormVendas.sku_v f))
                         (Some (strip (FormVendas.nome_v f)))
                         (FormVendas.preco_unit f)
                         (FormVendas.qtd_v f)
                         (Some (FormVendas.market f)))
             (sales st)),
     success "Venda registrada!").

Module Venda.
(** A row of [dfv], with its computed column [faturamento]. *)
Record row : Type := mk {
  id : Z;
  data : string;
  sku : string;
  nome : string;
  preco_unit : Q;
  qtd : Z;
  marketplace : option string;
  faturamento : Q
}.

Definition select (r : Sale.row) : row :=
  mk (Sale.id r) (Sale.date r) (Sale.sku r) (COALESCE (Sale.name r) "")
     (Sale.unit_price r) (Sale.quantity r) (Sale.marketplace r)
     (Sale.unit_price r * inject_Z (Sale.quantity r)).
End Venda.

(** The listing of the current month in [aba2]. *)
Definition vendas_do_mes (st : db) (today : date) : list Venda.row :=
  let first_day := iso (month_start today) in
  let last_day := iso (next_month today) in
  map Venda.select
    (order_by
       (fun r1 r2 => date_id_desc (Sale.date r1) (Sale.id r1)
                                  (Sale.date r2) (Sale.id r2))
       (filter (fun r => between first_day last_day (Sale.date r))
               (rows (sales st)))).

(** The body of [if st.button("Excluir venda selecionada"):]. *)
Definition excluir_venda (st : db) (del_id : Z) : db * feedback :=
  (mkDb (purchases st) (delete_row Sale.id del_id (sales st)),
   success "Venda excluída.").

(** ** Tab "Lucro" ([aba3]) *)

(** The result of a float division, the only operation of the report that
    can leave the finite numbers: a non-zero numerator over zero is an
    infinity with the sign of the numerator, zero over zero is NaN. *)
Inductive float : Type :=
| Fin (q : Q)
| PosInf
| NegInf
| NaN.

Definition float_div (a b : Q) : float :=
  if Qeq_bool b 0 then
    match a ?= 0 with
    | Eq => NaN
    | Lt => NegInf
    | Gt => PosInf
    end
  else Fin (a / b).

(** [.replace([pd.NA, pd.NaT], 0)] on a float column.  Neither marker is
    an infinity or a finite number, so those are kept; whether a NaN cell
    counts as a missing value is left to [nan_is_na]. *)
Definition replace_na (nan_is_na : bool) (x : float) : float :=
  match x with
  | NaN => if nan_is_na then Fin 0 else NaN
  | _ => x
  end.

(** [x * 100] on a float cell. *)
Definition float_times (x : float) (k : Q) : float :=
  match x with
  | Fin q => Fin (q * k)
  | _ => x
  end.

Module Lucro.
(** A row of [df]: the columns the query selects ... *)
Record row : Type := mk {
  id : Z;
  data : string;
  sku : string;
  nome : string;
  unit_price : Q;
  quantity : Z;
  marketplace : option string;
  (** ... and the columns the report adds. *)
  custo_medio_unit : Q;
  taxa_percent_unit : Q;
  taxa_fixa_unit : Q;
  imposto_unit : Q;
  lucro_unit : Q;
  faturamento : Q;
  lucro_total : Q;
  margem : float
}.
End Lucro.

(** The sales of the period, as the two queries of [aba3] load them. *)
Definition carrega_vendas
  (st : db) (start_iso end_iso marketplace_filter : string) : list Sale.row :=
  let by_date := fun r1 r2 => String.leb (Sale.date r1) (Sale.date r2) in
  if (marketplace_filter =? "Todos")%string then
    order_by by_date
      (filter (fun r => between start_iso end_iso (Sale.date r))
              (rows (sales st)))
  else
    order_by by_date
      (filter (fun r => between start_iso end_iso (Sale.date r)
                        && match Sale.marketplace r with
                           | Some m => (m =? marketplace_filter)%string
                           | None => false
                           end)
              (rows (sales st))).

(** [avg if avg is not None else 0.0] *)
Definition custo_ou_zero (avg : option Q) : Q :=
  match avg with
  | Some c => c
  | None => 0.0
  end.

(** The columns derived for one sale, given its average cost. *)
Definition linha_lucro (nan_is_na : bool) (r : Sale.row) (avg : option Q)
  : Lucro.row :=
  let unit_price := Sale.unit_price r in
  let quantity := inject_Z (Sale.quantity r) in
  let custo_medio_unit := custo_ou_zero avg in
  let taxa_percent_unit := unit_price * 0.20 in
  let taxa_fixa_unit := 4.0 in
  let imposto_unit := unit_price * 0.08 in
  let lucro_unit :=
    unit_price - custo_medio_unit - taxa_percent_unit - taxa_fixa_unit
    - imposto_unit in
  let faturamento := unit_price * quantity in
  let lucro_total := lucro_unit * quantity in
  let margem :=
    float_times (replace_na nan_is_na (float_div lucro_unit unit_price)) 100 in
  Lucro.mk (Sale.id r) (Sale.date r) (Sale.sku r) (COALESCE (Sale.name r) "")
           unit_price (Sale.quantity r) (Sale.marketplace r)
           custo_medio_unit taxa_percent_unit taxa_fixa_unit imposto_unit
           lucro_unit faturamento lucro_total margem.

(** The aggregated indicators. *)
Record totais : Type := mkTotais {
  total_faturamento : Q;
  total_custo : Q;
  total_taxa_percent : Q;
  total_taxa_fixa : Q;
  total_imposto : Q;
  total_lucro : Q
}.

Definition col_times_quantity (col : Lucro.row -> Q) (df : list Lucro.row)
  : list Q :=
  map (fun r => col r * inject_Z (Lucro.quantity r)) df.

Definition indicadores (df : list Lucro.row) : totais :=
  mkTotais
    (total (map Lucro.faturamento df))
    (total (col_times_quantity Lucro.custo_medio_unit df))
    (total (col_times_quantity Lucro.taxa_percent_unit df))
    (total (col_times_quantity Lucro.taxa_fixa_unit df))
    (total (col_times_quantity Lucro.imposto_unit df))
    (total (map Lucro.lucro_total df)).

(** The data frame of the report: one derived row per loaded sale, the
    average cost taken up to the date of the sale. *)
Definition tabela_lucro (nan_is_na : bool) (st : db) (vendas : list Sale.row)
  : list Lucro.row :=
  map (fun r =>
         linha_lucro nan_is_na r
           (get_avg_cost_until (rows (purchases st)) (Sale.sku r) (Sale.date r)))
      vendas.

Inductive relatorio : Type :=
| SemVendas (msg : feedback)
| Relatorio (df : list Lucro.row) (tot : totais).

(** The tab as a whole, from the two inputs of its selectors. *)
Definition aba3 (nan_is_na : bool) (st : db) (ref_date : date)
  (marketplace_filter : string) : relatorio :=
  let start_iso := iso (month_start ref_date) in
  let end_iso := iso (next_month ref_date) in
  let vendas := carrega_vendas st start_iso end_iso marketplace_filter in
  match vendas with
  | [] => SemVendas (info "Sem vendas no período selecionado.")
  | _ =>
      let df := tabela_lucro nan_is_na st vendas in
      Relatorio df (indicadores df)
  end.

(** ** Formatting money ([fmt_money]) *)

(** [s.replace(old, new)] for one-character [old] and [new]. *)
Fixpoint replace (old new : ascii) (s : string) : string :=
  match s with
  | EmptyString => EmptyString
  | String c t =>
      String (if (c =? old)%char then new else c) (replace old new t)
  end.

(** [fmt_money(x)] for a number [x].  The text Python prints for the
    format [,.2f] (thousands separated by commas, two decimals after a
    point) is the parameter [format_2f]; the three replacements that turn
    it into the Brazilian notation are the program's. *)
Definition fmt_money (format_2f : Q -> string) (x : Q) : string :=
  replace "X" "." (replace "." "," (replace "," "X" ("R$ " ++ format_2f x))).

(** ** Sessions *)

(** What a rerun of the page can do to the database: at most one of the
    two forms is submitted or one of the two delete buttons is pressed. *)
Inductive acao : Type :=
| SalvarCompra (f : FormCompras.t)
| ExcluirCompra (del_id : Z)
| SalvarVenda (f : FormVendas.t)
| ExcluirVenda (del_id : Z).

Definition passo (st : db) (a : acao) : db :=
  match a with
  | SalvarCompra f => fst (salvar_compra st f)
  | ExcluirCompra del_id => fst (excluir_compra st del_id)
  | SalvarVenda f => fst (salvar_venda st f)
  | ExcluirVenda del_id => fst (excluir_venda st del_id)
  end.

(** The database after a session that starts from [st]. *)
Definition executa (st : db) (l : list acao) : db :=
  fold_left passo l st.

(** ** Sample data used by the examples below *)

Definition d_2024_03_10 : date := mkDate 2024 3 10.
Definition d_2024_03_20 : date := mkDate 2024 3 20.

Definition compra_kettle_40 : Purchase.row :=
  Purchase.mk 1 "2024-03-10" "KETTLE" (Some "Chaleira"%string) 40 1.

Definition venda_kettle_100 : Sale.row :=
  Sale.mk 1 "2024-03-20" "KETTLE" (Some "Chaleira"%string) 100 1
          (Some "Shopee"%string).

Definition venda_preco_zero : Sale.row :=
  Sale.mk 2 "2024-03-20" "BRINDE" None 0 1 (Some "Outros"%string).

(** One purchase and one sale of the same product in March 2024. *)
Definition db_kettle : db :=
  mkDb (mkTable [compra_kettle_40] 1%Z) (mkTable [venda_kettle_100] 1%Z).

(** The same, with a second sale: a give-away at price zero of a product
    that was never purchased. *)
Definition db_brinde : db :=
  mkDb (mkTable [compra_kettle_40] 1%Z)
       (mkTable [venda_kettle_100; venda_preco_zero] 2%Z).




(** ** Vocabulary of the statements *)

(** The purchases [get_avg_cost_until] aggregates: those of the product
    code dated on or before the reference date. *)
Definition selected (ps : list Purchase.row) (sku until_iso : string)
  : list Purchase.row :=
  filter (where_sku_until sku until_iso) ps.

Definition sum_cost_qty (l : list Purchase.row) : Q :=
  total (map (fun r => Purchase.unit_cost r * inject_Z (Purchase.quantity r)) l).

Definition sum_qty (l : list Purchase.row) : Z :=
  total_int (map Purchase.quantity l).




(** The dates Python can build, and their calendar order. *)
Definition valid_date (d : date) : Prop :=
  (1 <= year d <= 9999 /\ 1 <= month d <= 12 /\ 1 <= day d <= 31)%Z.

Definition lex (c1 c2 : comparison) : comparison :=
  match c1 with
  | Eq => c2
  | _ => c1
  end.

Definition date_compare (d1 d2 : date) : comparison :=
  lex (year d1 ?= year d2)%Z
      (lex (month d1 ?= month d2)%Z (day d1 ?= day d2)%Z).

(** A sale dated in the period: on or after its first day and before the
    first day after it. *)
Definition in_period (start_iso end_iso : string) (r : Sale.row) : Prop :=
  String.leb start_iso (Sale.date r) = true
  /\ String.ltb (Sale.date r) end_iso = true.

(** The sales a filter value asks for: with ["Todos"] every sale of the
    period, otherwise those of the period tagged with that marketplace. *)
Definition wanted (start_iso end_iso marketplace_filter : string)
  (r : Sale.row) : Prop :=
  in_period start_iso end_iso r
  /\ (marketplace_filter = "Todos"%string
      \/ Sale.marketplace r = Some marketplace_filter).

(** *** Vocabulary of the further properties *)

(** The characters of a string, one by one. *)
Fixpoint map_string (f : ascii -> ascii) (s : string) : string :=
  match s with
  | EmptyString => EmptyString
  | String c t => String (f c) (map_string f t)
  end.

Fixpoint chars (s : string) : list ascii :=
  match s with
  | EmptyString => []
  | String c t => c :: chars t
  end.

(** Comma for point and point for comma. *)
Definition swap_separator (c : ascii) : ascii :=
  if (c =? ",")%char then "."%char
  else if (c =? ".")%char then ","%char
  else c.

(** The identifiers of a table are distinct, positive and not above its
    counter, which is not negative. *)
Definition ids_ok {A : Type} (id : A -> Z) (t : table A) : Prop :=
  NoDup (map id (rows t))
  /\ Forall (fun r => (1 <= id r <= seq t)%Z) (rows t)
  /\ (0 <= seq t)%Z.

(** An action whose form is within the ranges of its widgets and carries
    a date Python can build. *)
Definition acao_ok (a : acao) : Prop :=
  match a with
  | SalvarCompra f => FormCompras.in_range f /\ valid_date (FormCompras.d f)
  | SalvarVenda f => FormVendas.in_range f /\ valid_date (FormVendas.d f)
  | ExcluirCompra _ | ExcluirVenda _ => True
  end.

(** What such actions store. *)
Definition purchase_ok (r : Purchase.row) : Prop :=
  0 < Purchase.unit_cost r
  /\ (1 <= Purchase.quantity r)%Z
  /\ (exists d, valid_date d /\ Purchase.date r = iso d)
  /\ Purchase.name r <> None
  /\ strip (Purchase.sku r) = Purchase.sku r.

Definition sale_ok (r : Sale.row) : Prop :=
  0 < Sale.unit_price r
  /\ (1 <= Sale.quantity r)%Z
  /\ (exists d, valid_date d /\ Sale.date r = iso d)
  /\ Sale.name r <> None
  /\ strip (Sale.sku r) = Sale.sku r
  /\ In (Sale.marketplace r)
        [Some "Shopee"; Some "Mercado Livre"; Some "Outros"]%string.

(** Two dates of one calendar month. *)
Definition same_month (d1 d2 : date) : Prop :=
  year d1 = year d2 /\ month d1 = month d2.





(** A session of three actions: a purchase, a sale, and the deletion of
    an identifier no purchase has. *)
Definition sessao_kettle : list acao :=
  [SalvarCompra (FormCompras.mk d_2024_03_10 " KETTLE " "Chaleira" 40 2);
   SalvarVenda (FormVendas.mk d_2024_03_20 "KETTLE" "Chaleira" 100 1 "Shopee");
   ExcluirCompra 7].

Definition form_compra_kettle : FormCompras.t :=
  FormCompras.mk d_2024_03_10 " KETTLE " "Chaleira" 40 2.

(** * Properties *)

(** ** SQL aggregates *)

Section Aggregates.





Lemma selected_app (l1 l2 : list Purchase.row) (sku d : string) :
  selected (l1 ++ l2) sku d = selected l1 sku d ++ selected l2 sku d.
Proof.
  unfold selected. apply filter_app.
Qed.

Lemma selected_In (ps : list Purchase.row) (sku d : string) (r : Purchase.row) :
  In r (selected ps sku d) <->
  In r ps /\ Purchase.sku r = sku /\ String.leb (Purchase.date r) d = true.
Proof.
  unfold selected, where_sku_until.
  rewrite filter_In, andb_true_iff, String.eqb_eq. tauto.
Qed.

Lemma leb_refl (s : string) : String.leb s s = true.
Proof.
  unfold String.leb.
  assert (H : String.compare s s = Eq).
  { induction s as [|c s IH]; simpl; [reflexivity|].
    rewrite IH.
    assert (Hc : Ascii.compare c c = Eq).
    { unfold Ascii.compare. apply N.compare_refl. }
    now rewrite Hc. }
  now rewrite H.
Qed.

(** The value of the aggregate query, case by case. *)
Lemma get_avg_cost_until_eq (ps : list Purchase.row) (sku d : string) :
  get_avg_cost_until ps sku d =
  match selected ps sku d with
  | [] => None
  | _ :: _ =>
      if (sum_qty (selected ps sku d) =? 0)%Z then None
      else Some (sum_cost_qty (selected ps sku d) * 1.0
                 / inject_Z (sum_qty (selected ps sku d)))
  end.
Proof.
  unfold get_avg_cost_until, sum_qty, sum_cost_qty, selected.
  destruct (filter (where_sku_until sku d) ps) as [|r t]; [reflexivity|].
  cbn [map SUM SUM_int NULLIF sql_mul].
  destruct (total_int (Purchase.quantity r :: map Purchase.quantity t) =? 0)%Z eqn:E.
  - reflexivity.
  - cbn [sql_div]. rewrite E. reflexivity.
Qed.

End Aggregates.

(** ** ISO dates compare as calendar dates *)

Section IsoOrder.

Local Open Scope Z_scope.

Lemma compare_app (s1 s2 t1 t2 : string) :
  String.length s1 = String.length s2 ->
  String.compare (s1 ++ t1) (s2 ++ t2)
  = lex (String.compare s1 s2) (String.compare t1 t2).
Proof.
  revert s2. induction s1 as [|c s1 IH]; intros [|c' s2] Hlen;
    try discriminate Hlen; simpl; [reflexivity|].
  destruct (Ascii.compare c c'); try reflexivity.
  apply IH. now injection Hlen.
Qed.

Lemma compare_digit (a b : Z) :
  Ascii.compare (digit a) (digit b) = (a mod 10 ?= b mod 10).
Proof.
  unfold Ascii.compare, digit.
  assert (Ha : 0 <= a mod 10 < 10) by (apply Z.mod_pos_bound; lia).
  assert (Hb : 0 <= b mod 10 < 10) by (apply Z.mod_pos_bound; lia).
  rewrite !N_ascii_embedding by lia.
  rewrite Z2N.inj_compare by lia.
  apply Z.add_compare_mono_l.
Qed.

Lemma compare_pad2 (a b : Z) :
  0 <= a < 100 -> 0 <= b < 100 ->
  String.compare (pad2 a) (pad2 b) = (a ?= b).
Proof.
  intros Ha Hb. unfold pad2. simpl. rewrite !compare_digit.
  destruct (Z.compare_spec ((a / 10) mod 10) ((b / 10) mod 10)) as [H1|H1|H1];
    destruct (Z.compare_spec (a mod 10) (b mod 10)) as [H2|H2|H2];
    destruct (Z.compare_spec a b) as [H|H|H];
    try reflexivity; exfalso;
    Z.to_euclidean_division_equations; lia.
Qed.

Lemma compare_pad4 (a b : Z) :
  0 <= a < 10000 -> 0 <= b < 10000 ->
  String.compare (pad4 a) (pad4 b) = (a ?= b).
Proof.
  intros Ha Hb. unfold pad4, pad2. simpl. rewrite !compare_digit.
  destruct (Z.compare_spec ((a / 1000) mod 10) ((b / 1000) mod 10)) as [H1|H1|H1];
    destruct (Z.compare_spec ((a / 100) mod 10) ((b / 100) mod 10)) as [H2|H2|H2];
    destruct (Z.compare_spec ((a / 10) mod 10) ((b / 10) mod 10)) as [H3|H3|H3];
    destruct (Z.compare_spec (a mod 10) (b mod 10)) as [H4|H4|H4];
    destruct (Z.compare_spec a b) as [H|H|H];
    try reflexivity; exfalso;
    Z.to_euclidean_division_equations; lia.
Qed.

(** The byte order of two ISO strings is the calendar order of the dates
    they print. *)
Lemma compare_iso (d1 d2 : date) :
  valid_date d1 -> valid_date d2 ->
  String.compare (iso d1) (iso d2) = date_compare d1 d2.
Proof.
  intros (Hy1 & Hm1 & Hd1) (Hy2 & Hm2 & Hd2). unfold iso, date_compare.
  rewrite compare_app by reflexivity. rewrite compare_pad4 by lia.
  f_equal.
  rewrite (compare_app "-" "-") by reflexivity.
  rewrite (compare_app (pad2 _) (pad2 _)) by reflexivity.
  rewrite compare_pad2 by lia.
  rewrite (compare_app "-" "-") by reflexivity.
  rewrite compare_pad2 by lia.
  reflexivity.
Qed.

Lemma leb_iso (d1 d2 : date) :
  valid_date d1 -> valid_date d2 ->
  String.leb (iso d1) (iso d2) = true <-> date_compare d1 d2 <> Gt.
Proof.
  intros H1 H2. unfold String.leb. rewrite compare_iso by assumption.
  destruct (date_compare d1 d2); split; congruence.
Qed.

Lemma ltb_iso (d1 d2 : date) :
  valid_date d1 -> valid_date d2 ->
  String.ltb (iso d1) (iso d2) = true <-> date_compare d1 d2 = Lt.
Proof.
  intros H1 H2. unfold String.ltb. rewrite compare_iso by assumption.
  destruct (date_compare d1 d2); split; congruence.
Qed.

(** The period of the report and of the listings holds the days of the
    month of the reference date, and no other day. *)
Lemma between_month (ref_date x : date) :
  valid_date ref_date -> valid_date (next_month ref_date) -> valid_date x ->
  between (iso (month_start ref_date)) (iso (next_month ref_date)) (iso x)
  = true
  <-> year x = year ref_date /\ month x = month ref_date.
Proof.
  intros Hr Hn Hx. unfold between. rewrite andb_true_iff.
  assert (Hs : valid_date (month_start ref_date)).
  { destruct Hr as (? & ? & ?). unfold valid_date, month_start. simpl. lia. }
  rewrite leb_iso, ltb_iso by assumption.
  destruct Hr as (Hy & Hm & _), Hx as (Hxy & Hxm & Hxd).
  unfold date_compare, lex, month_start, next_month. cbn [year month day].
  destruct (month ref_date =? 12) eqn:E;
    [apply Z.eqb_eq in E | apply Z.eqb_neq in E];
    repeat match goal with
           | |- context [(?a ?= ?b)] => destruct (Z.compare_spec a b)
           end;
    (split;
     [ intros [Ha Hb]; try discriminate Hb;
       try (exfalso; apply Ha; reflexivity); try lia
     | intros [Ha Hb];
       first [ exfalso; lia | split; [discriminate | reflexivity] ] ]).
Qed.

End IsoOrder.

(** ** The weighted average cost *)

(** C1. [get_avg_cost_until] answers [None] exactly when the purchases of
    the product code dated on or before the reference date are none or
    have total quantity zero; otherwise it answers the sum of unit cost
    times quantity over the sum of the quantities of those purchases.  A
    purchase dated exactly on the reference date is one of them. *)
Theorem get_avg_cost_until_spec (ps : list Purchase.row) (sku d : string) :
  (forall r, In r (selected ps sku d) <->
             In r ps /\ Purchase.sku r = sku
             /\ String.leb (Purchase.date r) d = true)
  /\ (forall r, In r ps /\ Purchase.sku r = sku /\ Purchase.date r = d ->
                In r (selected ps sku d))
  /\ (get_avg_cost_until ps sku d = None <->
      selected ps sku d = [] \/ sum_qty (selected ps sku d) = 0%Z)
  /\ (~ (selected ps sku d = [] \/ sum_qty (selected ps sku d) = 0%Z) ->
      exists v, get_avg_cost_until ps sku d = Some v
                /\ v == sum_cost_qty (selected ps sku d)
                        / inject_Z (sum_qty (selected ps sku d))).
Proof.
  split; [|split; [|split]].
  - intro r. apply selected_In.
  - intros r (Hin & Hsku & Hd). apply selected_In.
    repeat split; trivial. rewrite Hd. apply leb_refl.
  - rewrite get_avg_cost_until_eq.
    destruct (selected ps sku d) as [|r t] eqn:E.
    + split; auto.
    + destruct (sum_qty (r :: t) =? 0)%Z eqn:Hz.
      * apply Z.eqb_eq in Hz. split; auto.
      * apply Z.eqb_neq in Hz. split; [intro H; discriminate H|].
        intros [H|H]; [discriminate H | contradiction].
  - intro Hdef. rewrite get_avg_cost_until_eq.
    destruct (selected ps sku d) as [|r t] eqn:E.
    + exfalso. apply Hdef. now left.
    + destruct (sum_qty (r :: t) =? 0)%Z eqn:Hz.
      * apply Z.eqb_eq in Hz. exfalso. apply Hdef. now right.
      * eexists. split; [reflexivity|].
        apply Z.eqb_neq in Hz.
        field. intro H0. apply Hz.
        unfold Qeq in H0. simpl in H0. lia.
Qed.

Section WeightedAverage.


(** The emptiness test of [SUM] is subsumed by the one of [NULLIF]. *)
Lemma get_avg_cost_until_ratio (ps : list Purchase.row) (sku d : string) :
  get_avg_cost_until ps sku d =
  if (sum_qty (selected ps sku d) =? 0)%Z then None
  else Some (sum_cost_qty (selected ps sku d) * 1.0
             / inject_Z (sum_qty (selected ps sku d))).
Proof.
  rewrite get_avg_cost_until_eq.
  destruct (selected ps sku d); reflexivity.
Qed.




End WeightedAverage.

(** Read on calendar dates: a purchase entered for the day [dp] counts for
    the reference day [dref] exactly when [dp] is not after [dref]. *)
Lemma selected_calendar
  (ps : list Purchase.row) (sku : string) (dp dref : date) (r : Purchase.row) :
  valid_date dp -> valid_date dref ->
  Purchase.date r = iso dp ->
  In r (selected ps sku (iso dref)) <->
  In r ps /\ Purchase.sku r = sku /\ date_compare dp dref <> Gt.
Proof.
  intros Hp Href Hd. rewrite selected_In, Hd, leb_iso by assumption.
  reflexivity.
Qed.



Section Bounds.





Variable l : list Purchase.row.
Hypothesis quantity_nonneg : forall x, In x l -> (0 <= Purchase.quantity x)%Z.




End Bounds.



(** ** The profit report *)

(** Reads the columns of a derived row without unfolding the arithmetic. *)
Ltac lucro_columns :=
  unfold linha_lucro;
  cbn [Lucro.id Lucro.data Lucro.sku Lucro.nome Lucro.unit_price
       Lucro.quantity Lucro.marketplace Lucro.custo_medio_unit
       Lucro.taxa_percent_unit Lucro.taxa_fixa_unit Lucro.imposto_unit
       Lucro.lucro_unit Lucro.faturamento Lucro.lucro_total Lucro.margem].

Section Report.

Variable nan_is_na : bool.
Variable st : db.

(** The derived columns of one row, read off [linha_lucro]. *)
Lemma linha_lucro_lucro_unit (r : Sale.row) (a : option Q) :
  Lucro.lucro_unit (linha_lucro nan_is_na r a)
  == Sale.unit_price r - custo_ou_zero a - Sale.unit_price r * 0.20 - 4.0
     - Sale.unit_price r * 0.08.
Proof. reflexivity. Qed.






End Report.



(** C4. A sale whose product code has no average cost (no purchase of it
    on or before the day of the sale, or purchases of total quantity zero)
    gets the unit cost 0 in the report, so that its unit profit is the
    unit price minus the percentage fee, the fixed fee and the tax; the
    row is produced like any other. *)
Theorem sale_without_cost_basis
  (nan_is_na : bool) (st : db) (vendas : list Sale.row) (r : Sale.row) :
  In r vendas ->
  get_avg_cost_until (rows (purchases st)) (Sale.sku r) (Sale.date r) = None ->
  exists row,
    In row (tabela_lucro nan_is_na st vendas)
    /\ Lucro.id row = Sale.id r
    /\ Lucro.unit_price row = Sale.unit_price r
    /\ Lucro.custo_medio_unit row == 0
    /\ Lucro.taxa_percent_unit row == Sale.unit_price r * 0.20
    /\ Lucro.taxa_fixa_unit row == 4
    /\ Lucro.imposto_unit row == Sale.unit_price r * 0.08
    /\ Lucro.lucro_unit row
       == Lucro.unit_price row - Lucro.taxa_percent_unit row
          - Lucro.taxa_fixa_unit row - Lucro.imposto_unit row.
Proof.
  intros Hin Havg.
  exists (linha_lucro nan_is_na r None). split.
  - unfold tabela_lucro. apply in_map_iff. exists r. now rewrite Havg.
  - lucro_columns. unfold custo_ou_zero.
    repeat split; try reflexivity. ring.
Qed.

Lemma sale_without_cost_basis_witness :
  exists row,
    In row (tabela_lucro false db_brinde [venda_preco_zero])
    /\ Lucro.id row = 2%Z
    /\ Lucro.custo_medio_unit row == 0
    /\ Lucro.lucro_unit row == - (4).
Proof.
  destruct (sale_without_cost_basis false db_brinde [venda_preco_zero]
              venda_preco_zero (or_introl eq_refl) eq_refl)
    as (row & Hin & Hid & Hp & Hc & Hf & Hx & Ht & Hl).
  exists row. repeat split; trivial.
  rewrite Hl, Hf, Hx, Ht, Hp. reflexivity.
Defined.

(** C9. A sale of one unit at 100 with an average cost of 40 is reported
    with a percentage fee of 20, a fixed fee of 4, a tax of 8, a unit
    profit of 28 and a margin of 28 percent. *)
Theorem profit_of_100_over_40
  (nan_is_na : bool) (st : db) (r : Sale.row) (c : Q) :
  get_avg_cost_until (rows (purchases st)) (Sale.sku r) (Sale.date r) = Some c ->
  c == 40 ->
  Sale.unit_price r == 100 ->
  Sale.quantity r = 1%Z ->
  exists row m,
    tabela_lucro nan_is_na st [r] = [row]
    /\ Lucro.custo_medio_unit row == 40
    /\ Lucro.taxa_percent_unit row == 20.00
    /\ Lucro.taxa_fixa_unit row == 4.00
    /\ Lucro.imposto_unit row == 8.00
    /\ Lucro.lucro_unit row == 28.00
    /\ Lucro.faturamento row == 100
    /\ Lucro.lucro_total row == 28.00
    /\ Lucro.margem row = Fin m /\ m == 28.00.
Proof.
  intros Havg Hc Hp Hq.
  assert (Hp0 : Qeq_bool (Sale.unit_price r) 0 = false).
  { destruct (Qeq_bool (Sale.unit_price r) 0) eqn:E; [|reflexivity].
    apply Qeq_bool_eq in E. rewrite Hp in E. discriminate E. }
  eexists. eexists. unfold tabela_lucro. cbn [map]. rewrite Havg.
  split; [reflexivity|].
  lucro_columns. unfold custo_ou_zero, float_div. rewrite Hp0, Hq.
  cbn [replace_na float_times].
  repeat split; try reflexivity; rewrite ?Hp, ?Hc; try reflexivity.
Qed.

Lemma profit_of_100_over_40_witness :
  exists row m,
    tabela_lucro true db_kettle [venda_kettle_100] = [row]
    /\ Lucro.lucro_unit row == 28.00
    /\ Lucro.margem row = Fin m /\ m == 28.00.
Proof.
  destruct (profit_of_100_over_40 true db_kettle venda_kettle_100
              (40 * 1.0 / 1))
    as (row & m & Htab & _ & _ & _ & _ & Hl & _ & _ & Hm & Hm28);
    try reflexivity.
  exists row, m. repeat split; assumption.
Defined.

(** ** The margin column *)

Section Margin.

Variable nan_is_na : bool.


(** With a unit price of zero the unit profit is minus the cost minus
    the fixed fee, and the margin is minus infinity: [replace_na] keeps
    it, whatever it does with NaN. *)
Lemma margem_price_zero (r : Sale.row) (a : option Q) :
  Sale.unit_price r == 0 ->
  0 <= custo_ou_zero a ->
  Lucro.margem (linha_lucro nan_is_na r a) = NegInf.
Proof.
  intros Hp Hc. lucro_columns. unfold float_div.
  rewrite (Qeq_eq_bool _ _ Hp).
  assert (Hlt : Sale.unit_price r - custo_ou_zero a
                - Sale.unit_price r * 0.20 - 4.0
                - Sale.unit_price r * 0.08 < 0).
  { rewrite Hp.
    setoid_replace (0 - custo_ou_zero a - 0 * 0.20 - 4.0 - 0 * 0.08)
      with (- (custo_ou_zero a + 4)) by ring.
    apply (Qplus_lt_l _ _ (custo_ou_zero a + 4)).
    setoid_replace (- (custo_ou_zero a + 4) + (custo_ou_zero a + 4))
      with 0 by ring.
    setoid_replace (0 + (custo_ou_zero a + 4))
      with (custo_ou_zero a + 4) by ring.
    apply Qlt_le_trans with (0 + 4); [reflexivity|].
    apply Qplus_le_compat; [exact Hc | apply Qle_refl]. }
  rewrite Qlt_alt in Hlt. rewrite Hlt. reflexivity.
Qed.

End Margin.


(** ** Validation of the two forms *)

Lemma Qle_bool_false (x y : Q) : y < x -> Qle_bool x y = false.
Proof.
  intro H. destruct (Qle_bool x y) eqn:E; [|reflexivity].
  apply Qle_bool_iff in E. exfalso. exact (Qlt_not_le _ _ H E).
Qed.

(** What keeps a quantity below 1 out of the tables is the range of the
    quantity inputs: a form within the ranges of its widgets adds, if
    anything, a row with a positive cost or price and a quantity of at
    least 1. *)
Lemma salvar_compra_in_range (st : db) (f : FormCompras.t) (r : Purchase.row) :
  FormCompras.in_range f ->
  In r (rows (purchases (fst (salvar_compra st f)))) ->
  In r (rows (purchases st))
  \/ (0 < Purchase.unit_cost r /\ (1 <= Purchase.quantity r)%Z).
Proof.
  intros [_ Hq] Hr. unfold salvar_compra in Hr.
  destruct (FormCompras.sku f =? "")%string; [now left|].
  destruct (Qle_bool (FormCompras.custo_unit f) 0) eqn:Ec; [now left|].
  simpl in Hr. apply in_app_iff in Hr. destruct Hr as [Hr|[<-|[]]]; [now left|].
  right. simpl. split; [|exact Hq].
  apply Qnot_le_lt. intro Hle. apply Qle_bool_iff in Hle. congruence.
Qed.

Lemma salvar_venda_in_range (st : db) (f : FormVendas.t) (r : Sale.row) :
  FormVendas.in_range f ->
  In r (rows (sales (fst (salvar_venda st f)))) ->
  In r (rows (sales st))
  \/ (0 < Sale.unit_price r /\ (1 <= Sale.quantity r)%Z).
Proof.
  intros (_ & Hq & _) Hr. unfold salvar_venda in Hr.
  destruct (FormVendas.sku_v f =? "")%string; [now left|].
  destruct (Qle_bool (FormVendas.preco_unit f) 0) eqn:Ec; [now left|].
  simpl in Hr. apply in_app_iff in Hr. destruct Hr as [Hr|[<-|[]]]; [now left|].
  right. simpl. split; [|exact Hq].
  apply Qnot_le_lt. intro Hle. apply Qle_bool_iff in Hle. congruence.
Qed.




(** ** Queries over the sales *)

Section Queries.

Context {A : Type}.

Lemma insert_by_perm (le : A -> A -> bool) (x : A) (l : list A) :
  Permutation (insert_by le x l) (x :: l).
Proof.
  induction l as [|y l IH]; simpl; [reflexivity|].
  destruct (le x y); [reflexivity|].
  rewrite IH. apply perm_swap.
Qed.

(** [ORDER BY] rearranges the rows and neither drops nor adds one. *)
Lemma order_by_perm (le : A -> A -> bool) (l : list A) :
  Permutation (order_by le l) l.
Proof.
  induction l as [|x l IH]; simpl; [reflexivity|].
  rewrite insert_by_perm. now constructor.
Qed.

Lemma order_by_In (le : A -> A -> bool) (l : list A) (x : A) :
  In x (order_by le l) <-> In x l.
Proof.
  split; apply Permutation_in;
    [apply order_by_perm | symmetry; apply order_by_perm].
Qed.

(** A [WHERE] clause splits a table into the rows it keeps and the rows
    it leaves. *)
Lemma filter_split_perm (f : A -> bool) (l : list A) :
  Permutation l (filter f l ++ filter (fun x => negb (f x)) l).
Proof.
  induction l as [|x l IH]; simpl; [reflexivity|].
  destruct (f x); simpl.
  - now constructor.
  - rewrite IH at 1. apply Permutation_middle.
Qed.

Lemma filter_all (f : A -> bool) (l : list A) :
  (forall x, In x l -> f x = true) -> filter f l = l.
Proof.
  induction l as [|x l IH]; intro H; simpl; [reflexivity|].
  rewrite (H x (or_introl eq_refl)), IH; [reflexivity|].
  intros y Hy. apply H. now right.
Qed.

End Queries.

(** The [WHERE] clause of each of the two sales queries of the report
    decides [wanted]. *)
Lemma wanted_todos (start_iso end_iso : string) (r : Sale.row) :
  between start_iso end_iso (Sale.date r) = true
  <-> wanted start_iso end_iso "Todos" r.
Proof.
  unfold wanted, in_period, between. rewrite andb_true_iff. tauto.
Qed.

Lemma wanted_marketplace (start_iso end_iso mf : string) (r : Sale.row) :
  mf <> "Todos"%string ->
  between start_iso end_iso (Sale.date r)
  && match Sale.marketplace r with
     | Some m => (m =? mf)%string
     | None => false
     end = true
  <-> wanted start_iso end_iso mf r.
Proof.
  intro Hmf. unfold wanted, in_period, between.
  rewrite !andb_true_iff.
  destruct (Sale.marketplace r) as [m|].
  - rewrite String.eqb_eq. split.
    + intros [H ->]. auto.
    + intros [H [Ht|Hm]]; [contradiction|]. injection Hm as ->. auto.
  - split.
    + intros [_ H]. discriminate H.
    + intros [_ [Ht|Hm]]; [contradiction | discriminate Hm].
Qed.

(** C7. The sales the report loads for a period and a filter value are
    exactly the stored sales that are dated in the period and, unless the
    filter is ["Todos"], tagged with the marketplace of the filter: the
    stored sales split into the loaded ones, all of which qualify, and
    the others, none of which does. *)
Theorem carrega_vendas_exact
  (st : db) (start_iso end_iso marketplace_filter : string) :
  exists others,
    Permutation (rows (sales st))
                (carrega_vendas st start_iso end_iso marketplace_filter
                 ++ others)
    /\ Forall (wanted start_iso end_iso marketplace_filter)
              (carrega_vendas st start_iso end_iso marketplace_filter)
    /\ Forall (fun r => ~ wanted start_iso end_iso marketplace_filter r)
              others.
Proof.
  unfold carrega_vendas.
  destruct (marketplace_filter =? "Todos")%string eqn:Emf.
  - apply String.eqb_eq in Emf. subst marketplace_filter.
    exists (filter (fun r => negb (between start_iso end_iso (Sale.date r)))
                   (rows (sales st))).
    split; [|split].
    + rewrite order_by_perm. apply filter_split_perm.
    + apply Forall_forall. intros r Hr.
      apply order_by_In, filter_In in Hr. now apply wanted_todos.
    + apply Forall_forall. intros r Hr Hw.
      apply filter_In in Hr. apply wanted_todos in Hw.
      destruct Hr as [_ Hr]. rewrite Hw in Hr. discriminate Hr.
  - apply String.eqb_neq in Emf.
    exists (filter
              (fun r => negb (between start_iso end_iso (Sale.date r)
                              && match Sale.marketplace r with
                                 | Some m => (m =? marketplace_filter)%string
                                 | None => false
                                 end))
              (rows (sales st))).
    split; [|split].
    + rewrite order_by_perm.
      apply (filter_split_perm
               (fun r => between start_iso end_iso (Sale.date r)
                         && match Sale.marketplace r with
                            | Some m => (m =? marketplace_filter)%string
                            | None => false
                            end)).
    + apply Forall_forall. intros r Hr.
      apply order_by_In, filter_In in Hr. now apply wanted_marketplace.
    + apply Forall_forall. intros r Hr Hw.
      apply filter_In in Hr. apply (wanted_marketplace _ _ _ _ Emf) in Hw.
      destruct Hr as [_ Hr]. rewrite Hw in Hr. discriminate Hr.
Qed.

Lemma tabela_lucro_ids (nan_is_na : bool) (st : db) (vendas : list Sale.row) :
  map Lucro.id (tabela_lucro nan_is_na st vendas) = map Sale.id vendas.
Proof.
  unfold tabela_lucro. rewrite map_map. reflexivity.
Qed.

(** ** The order of the loaded sales *)

Section OrderBy.

Context {A : Type}.
Variable le : A -> A -> bool.
Hypothesis le_total : forall x y, le x y = true \/ le y x = true.

Let R (x y : A) : Prop := le x y = true.

Lemma insert_by_sorted (x : A) (l : list A) :
  Sorted R l -> Sorted R (insert_by le x l).
Proof.
  induction l as [|a l IH]; intro Hs; simpl.
  - repeat constructor.
  - destruct (le x a) eqn:E.
    + constructor; [exact Hs | constructor; exact E].
    + inversion Hs as [|? ? Hl Hhd]; subst.
      assert (Hax : R a x) by (destruct (le_total x a); [congruence | assumption]).
      constructor; [now apply IH|].
      destruct l as [|b l']; simpl.
      * now constructor.
      * destruct (le x b); constructor; [exact Hax|].
        now inversion Hhd.
Qed.

Lemma order_by_sorted (l : list A) : Sorted R (order_by le l).
Proof.
  induction l as [|x l IH]; simpl; [constructor|].
  now apply insert_by_sorted.
Qed.

End OrderBy.

(** [ORDER BY date]: the loaded sales come in ascending date order. *)
Lemma carrega_vendas_sorted (st : db) (start_iso end_iso mf : string) :
  Sorted (fun r1 r2 => String.leb (Sale.date r1) (Sale.date r2) = true)
         (carrega_vendas st start_iso end_iso mf).
Proof.
  unfold carrega_vendas.
  destruct (mf =? "Todos")%string;
    apply order_by_sorted; intros x y; apply String.leb_total.
Qed.

(** ** Deleting by identifier *)

Section Delete.

Context {A : Type}.
Variable id : A -> Z.
Variable del_id : Z.

Lemma delete_row_In (t : table A) (r : A) :
  In r (rows (delete_row id del_id t)) <-> In r (rows t) /\ id r <> del_id.
Proof.
  unfold delete_row. simpl.
  rewrite filter_In, negb_true_iff, Z.eqb_neq. reflexivity.
Qed.

Lemma delete_row_absent (t : table A) :
  (forall r, In r (rows t) -> id r <> del_id) -> delete_row id del_id t = t.
Proof.
  intro H. destruct t as [l s]. unfold delete_row. simpl in *.
  rewrite filter_all; [reflexivity|].
  intros r Hr. apply negb_true_iff, Z.eqb_neq. now apply H.
Qed.

Lemma delete_row_idem (t : table A) :
  delete_row id del_id (delete_row id del_id t) = delete_row id del_id t.
Proof.
  apply delete_row_absent. intros r Hr. now apply delete_row_In in Hr.
Qed.

End Delete.

(** C8. After a purchase or a sale is deleted by its identifier, no row of
    its table has that identifier, and so none of the queries of the
    program (the average cost, the two monthly listings, the sales of the
    report) reads one, while the rows of other identifiers stay.  Deleting
    the identifier again gives the same database and the same message, and
    deleting an identifier no row has leaves the database as it is; the
    answer is the success message in every case. *)
Theorem excluir_by_id (st : db) (del_id : Z) :
  (forall r, In r (rows (purchases (fst (excluir_compra st del_id)))) <->
             In r (rows (purchases st)) /\ Purchase.id r <> del_id)
  /\ (forall r, In r (rows (sales (fst (excluir_venda st del_id)))) <->
                In r (rows (sales st)) /\ Sale.id r <> del_id)
  /\ (forall sku d r,
         In r (selected (rows (purchases (fst (excluir_compra st del_id))))
                        sku d) ->
         Purchase.id r <> del_id)
  /\ (forall today row,
         In row (compras_do_mes (fst (excluir_compra st del_id)) today) ->
         Compra.id row <> del_id)
  /\ (forall today row,
         In row (vendas_do_mes (fst (excluir_venda st del_id)) today) ->
         Venda.id row <> del_id)
  /\ (forall start_iso end_iso mf r,
         In r (carrega_vendas (fst (excluir_venda st del_id))
                              start_iso end_iso mf) ->
         Sale.id r <> del_id)
  /\ excluir_compra (fst (excluir_compra st del_id)) del_id
     = excluir_compra st del_id
  /\ excluir_venda (fst (excluir_venda st del_id)) del_id
     = excluir_venda st del_id
  /\ ((forall r, In r (rows (purchases st)) -> Purchase.id r <> del_id) ->
      excluir_compra st del_id = (st, success "Compra excluída."))
  /\ ((forall r, In r (rows (sales st)) -> Sale.id r <> del_id) ->
      excluir_venda st del_id = (st, success "Venda excluída."))
  /\ (exists msg, snd (excluir_compra st del_id) = success msg)
  /\ (exists msg, snd (excluir_venda st del_id) = success msg).
Proof.
  repeat match goal with |- _ /\ _ => split end.
  - intro r. apply delete_row_In.
  - intro r. apply delete_row_In.
  - intros sku d r Hr. apply selected_In in Hr. destruct Hr as [Hr _].
    now apply delete_row_In in Hr.
  - intros today row Hrow. unfold compras_do_mes in Hrow.
    apply in_map_iff in Hrow. destruct Hrow as (r & <- & Hr).
    apply order_by_In, filter_In in Hr. destruct Hr as [Hr _].
    now apply delete_row_In in Hr.
  - intros today row Hrow. unfold vendas_do_mes in Hrow.
    apply in_map_iff in Hrow. destruct Hrow as (r & <- & Hr).
    apply order_by_In, filter_In in Hr. destruct Hr as [Hr _].
    now apply delete_row_In in Hr.
  - intros start_iso end_iso mf r Hr. unfold carrega_vendas in Hr.
    destruct (mf =? "Todos")%string;
      apply order_by_In, filter_In in Hr; destruct Hr as [Hr _];
      now apply delete_row_In in Hr.
  - unfold excluir_compra. simpl. now rewrite delete_row_idem.
  - unfold excluir_venda. simpl. now rewrite delete_row_idem.
  - intro H. unfold excluir_compra. rewrite delete_row_absent by exact H.
    now destruct st.
  - intro H. unfold excluir_venda. rewrite delete_row_absent by exact H.
    now destruct st.
  - eexists. reflexivity.
  - eexists. reflexivity.
Qed.

(** ** The program on sample inputs *)

Example iso_2024_03_10 : iso d_2024_03_10 = "2024-03-10"%string.
Proof. reflexivity. Qed.

Example period_of_december :
  iso (month_start (mkDate 2023 12 25)) = "2023-12-01"%string
  /\ iso (next_month (mkDate 2023 12 25)) = "2024-01-01"%string.
Proof. split; reflexivity. Qed.

Example strip_spaces : strip "  KETTLE 18L  " = "KETTLE 18L"%string.
Proof. reflexivity. Qed.

(** No purchase: no average.  A purchase on the day itself counts, a
    purchase on the day after does not. *)
Example get_avg_cost_until_samples :
  get_avg_cost_until [] "KETTLE" "2024-03-20" = None
  /\ get_avg_cost_until [compra_kettle_40] "KETTLE" "2024-03-10"
     = Some (40 * 1.0 / 1)
  /\ get_avg_cost_until [compra_kettle_40] "KETTLE" "2024-03-09" = None
  /\ get_avg_cost_until [compra_kettle_40] "OTHER" "2024-03-20" = None.
Proof. repeat split; reflexivity. Qed.

(** The first purchase of a fresh database gets identifier 1, and a
    deleted identifier is not given again. *)
Example autoincrement_after_delete :
  let st1 := fst (salvar_compra init_db
                    (FormCompras.mk d_2024_03_10 "KETTLE" "Chaleira" 40 1)) in
  let st2 := fst (excluir_compra st1 1) in
  let st3 := fst (salvar_compra st2
                    (FormCompras.mk d_2024_03_20 "KETTLE" "Chaleira" 50 2)) in
  map Purchase.id (rows (purchases st1)) = [1%Z]
  /\ rows (purchases st2) = []
  /\ map Purchase.id (rows (purchases st3)) = [2%Z].
Proof. repeat split; reflexivity. Qed.

(** A product code of white space only passes the test [not sku] and is
    stored stripped, that is, empty. *)
Example salvar_compra_blank_sku :
  map Purchase.sku
      (rows (purchases
               (fst (salvar_compra init_db
                       (FormCompras.mk d_2024_03_10 "  " "Chaleira" 40 1)))))
  = [""%string].
Proof. reflexivity. Qed.

(** The report of March 2024 over [db_kettle]: one row, 28 of profit. *)
Example aba3_db_kettle :
  exists row tot,
    aba3 true db_kettle d_2024_03_20 "Shopee" = Relatorio [row] tot
    /\ Lucro.lucro_unit row == 28
    /\ total_lucro tot == 28
    /\ aba3 true db_kettle d_2024_03_20 "Outros"
       = SemVendas (info "Sem vendas no período selecionado.").
Proof.
  eexists. eexists. split; [vm_compute; reflexivity|].
  repeat split; reflexivity.
Qed.

(** * Further properties of the program *)

(** ** Dates *)

Lemma compare_refl (s : string) : String.compare s s = Eq.
Proof.
  induction s as [|c s IH]; simpl; [reflexivity|].
  unfold Ascii.compare. now rewrite N.compare_refl.
Qed.

Lemma date_compare_eq (d1 d2 : date) : date_compare d1 d2 = Eq -> d1 = d2.
Proof.
  destruct d1 as [y1 m1 a1], d2 as [y2 m2 a2].
  unfold date_compare, lex. simpl.
  destruct (Z.compare_spec y1 y2); try discriminate.
  destruct (Z.compare_spec m1 m2); try discriminate.
  destruct (Z.compare_spec a1 a2); try discriminate.
  intros _. congruence.
Qed.

(** X1. On the dates Python can build, [iso] is ten characters long, maps
    different dates to different strings, and turns the calendar order
    into the byte order in which SQLite compares the [date] columns. *)
Theorem iso_calendar_order (d1 d2 : date) :
  valid_date d1 -> valid_date d2 ->
  String.length (iso d1) = 10%nat
  /\ String.compare (iso d1) (iso d2) = date_compare d1 d2
  /\ (iso d1 = iso d2 -> d1 = d2)
  /\ (String.leb (iso d1) (iso d2) = true <-> date_compare d1 d2 <> Gt)
  /\ (String.ltb (iso d1) (iso d2) = true <-> date_compare d1 d2 = Lt).
Proof.
  intros H1 H2. repeat split.
  - now apply compare_iso.
  - intro E. apply date_compare_eq.
    rewrite <- compare_iso, E by assumption. apply compare_refl.
  - now apply leb_iso.
  - now apply leb_iso.
  - now apply ltb_iso.
  - now apply ltb_iso.
Qed.

Lemma iso_calendar_order_witness :
  String.compare (iso d_2024_03_10) (iso d_2024_03_20) = Lt
  /\ String.ltb (iso d_2024_03_10) (iso d_2024_03_20) = true.
Proof.
  assert (H1 : valid_date d_2024_03_10) by (unfold valid_date; simpl; lia).
  assert (H2 : valid_date d_2024_03_20) by (unfold valid_date; simpl; lia).
  destruct (iso_calendar_order d_2024_03_10 d_2024_03_20 H1 H2)
    as (_ & Hc & _ & _ & Hlt).
  split; [exact Hc | apply Hlt; reflexivity].
Defined.

(** X2. For a reference date other than one in December 9999, the two
    dates the tabs build for the period are dates Python can build; the
    period starts at or before the reference date and ends after it, and
    a date lies in it exactly when it is of the month of the reference
    date. *)
Theorem month_period (ref_date : date) :
  valid_date ref_date ->
  (year ref_date < 9999 \/ month ref_date < 12)%Z ->
  valid_date (month_start ref_date)
  /\ valid_date (next_month ref_date)
  /\ date_compare (month_start ref_date) ref_date <> Gt
  /\ date_compare ref_date (next_month ref_date) = Lt
  /\ (forall x, valid_date x ->
                between (iso (month_start ref_date)) (iso (next_month ref_date))
                        (iso x) = true
                <-> same_month x ref_date).
Proof.
  intros Hv Hlast.
  assert (Hs : valid_date (month_start ref_date)).
  { destruct Hv as (? & ? & ?). unfold valid_date, month_start. simpl. lia. }
  assert (Hn : valid_date (next_month ref_date)).
  { destruct Hv as (? & ? & ?). unfold valid_date, next_month. simpl.
    destruct (month ref_date =? 12)%Z eqn:E;
      [apply Z.eqb_eq in E | apply Z.eqb_neq in E]; lia. }
  split; [exact Hs|]. split; [exact Hn|].
  assert (Hin : between (iso (month_start ref_date)) (iso (next_month ref_date))
                        (iso ref_date) = true).
  { apply between_month; try assumption. split; reflexivity. }
  unfold between in Hin. apply andb_true_iff in Hin. destruct Hin as [Ha Hb].
  split; [now apply leb_iso in Ha|]. split; [now apply ltb_iso in Hb|].
  intros x Hx. now apply between_month.
Qed.

Lemma month_period_witness :
  date_compare d_2024_03_20 (next_month d_2024_03_20) = Lt
  /\ (between (iso (month_start d_2024_03_20)) (iso (next_month d_2024_03_20))
              (iso d_2024_03_10) = true
      <-> same_month d_2024_03_10 d_2024_03_20).
Proof.
  assert (H1 : valid_date d_2024_03_10) by (unfold valid_date; simpl; lia).
  assert (H2 : valid_date d_2024_03_20) by (unfold valid_date; simpl; lia).
  destruct (month_period d_2024_03_20 H2) as (_ & _ & _ & Hlt & Hb).
  - left. simpl. lia.
  - split; [exact Hlt | exact (Hb d_2024_03_10 H1)].
Defined.

(** ** Strings *)

Section Strip.

Lemma rstrip_cons (c : ascii) (t : string) :
  isspace c = false -> rstrip (String c t) = String c (rstrip t).
Proof.
  intro Hc. simpl. rewrite Hc. now destruct (rstrip t).
Qed.

Lemma rstrip_idem (s : string) : rstrip (rstrip s) = rstrip s.
Proof.
  induction s as [|c t IH]; [reflexivity|].
  simpl. destruct (rstrip t) as [|c' t'] eqn:E.
  - destruct (isspace c) eqn:Hc; [reflexivity|].
    simpl. now rewrite Hc.
  - change (rstrip (String c (String c' t')) = String c (String c' t')).
    change (rstrip (String c (String c' t')))
      with (match rstrip (String c' t') with
            | EmptyString =>
                if isspace c then EmptyString else String c EmptyString
            | t'' => String c t''
            end).
    now rewrite IH.
Qed.

Lemma lstrip_head (s : string) :
  lstrip s = EmptyString
  \/ exists c t, lstrip s = String c t /\ isspace c = false.
Proof.
  induction s as [|c t IH]; [now left|].
  simpl. destruct (isspace c) eqn:Hc; [exact IH|].
  right. now exists c, t.
Qed.


Lemma strip_idem (s : string) : strip (strip s) = strip s.
Proof.
  unfold strip.
  destruct (lstrip_head s) as [E|(c & t & E & Hc)]; rewrite E.
  - reflexivity.
  - rewrite (rstrip_cons c t Hc). simpl lstrip. rewrite Hc.
    rewrite <- (rstrip_cons c t Hc). apply rstrip_idem.
Qed.


End Strip.



Section FmtMoney.

Lemma replace_chain (s : string) :
  replace "X" "." (replace "." "," (replace "," "X" s))
  = map_string (fun c => if (c =? "X")%char then "."%char
                         else swap_separator c) s.
Proof.
  induction s as [|c t IH]; [reflexivity|].
  simpl. rewrite IH. f_equal. unfold swap_separator.
  destruct (Ascii.eqb_spec c ",") as [->|Hcomma]; [reflexivity|].
  destruct (Ascii.eqb_spec c ".") as [->|Hpoint]; [reflexivity|].
  destruct (Ascii.eqb_spec c "X") as [->|HX]; reflexivity.
Qed.

Lemma map_string_ext_in (f g : ascii -> ascii) (s : string) :
  (forall c, In c (chars s) -> f c = g c) -> map_string f s = map_string g s.
Proof.
  induction s as [|c t IH]; intro H; [reflexivity|].
  simpl. rewrite (H c (or_introl eq_refl)), IH; [reflexivity|].
  intros c' Hc'. apply H. now right.
Qed.

Lemma swap_separator_involutive (s : string) :
  map_string swap_separator (map_string swap_separator s) = s.
Proof.
  induction s as [|c t IH]; [reflexivity|].
  simpl. rewrite IH. f_equal. unfold swap_separator.
  destruct (Ascii.eqb_spec c ",") as [->|Hcomma]; [reflexivity|].
  destruct (Ascii.eqb_spec c ".") as [->|Hpoint]; [reflexivity|].
  rewrite (proj2 (Ascii.eqb_neq c ",") Hcomma).
  rewrite (proj2 (Ascii.eqb_neq c ".") Hpoint). reflexivity.
Qed.

End FmtMoney.

(** X4. [fmt_money] puts ["R$ "] before the number and, when the printed
    number holds no letter X (the placeholder of the three replacements),
    swaps its commas and points and touches nothing else, so that the
    printed number can be read back by swapping again. *)
Theorem fmt_money_swaps_separators (format_2f : Q -> string) (x : Q) :
  ~ In "X"%char (chars (format_2f x)) ->
  fmt_money format_2f x
  = ("R$ " ++ map_string swap_separator (format_2f x))%string
  /\ map_string swap_separator (map_string swap_separator (format_2f x))
     = format_2f x.
Proof.
  intro HX. split; [|apply swap_separator_involutive].
  unfold fmt_money. rewrite replace_chain. simpl. do 3 f_equal.
  apply map_string_ext_in. intros c Hc.
  destruct (Ascii.eqb_spec c "X") as [->|Hne]; [contradiction | reflexivity].
Qed.

Lemma fmt_money_swaps_separators_witness :
  fmt_money (fun _ => "1,234.56"%string) 1234.56 = "R$ 1.234,56"%string.
Proof.
  refine (proj1 (fmt_money_swaps_separators (fun _ => "1,234.56"%string)
                                            1234.56 _)).
  simpl. intros [H|[H|[H|[H|[H|[H|[H|[H|[]]]]]]]]]; discriminate H.
Defined.

(** ** More on the weighted average *)

Section AverageAlgebra.




Lemma selected_irrelevant
  (l1 l2 : list Purchase.row) (p : Purchase.row) (sku d : string) :
  where_sku_until sku d p = false ->
  selected (l1 ++ p :: l2) sku d = selected (l1 ++ l2) sku d.
Proof.
  intro Hp. rewrite !selected_app. f_equal.
  unfold selected. simpl. now rewrite Hp.
Qed.

End AverageAlgebra.



(** X6. A purchase of another product code, or one dated after the
    reference date, has no part in the average: storing it or deleting
    it, anywhere in the table, leaves the answer the same. *)
Theorem get_avg_cost_until_ignores_others
  (l1 l2 : list Purchase.row) (p : Purchase.row) (sku d : string) :
  Purchase.sku p <> sku \/ String.ltb d (Purchase.date p) = true ->
  get_avg_cost_until (l1 ++ p :: l2) sku d
  = get_avg_cost_until (l1 ++ l2) sku d.
Proof.
  intro Hp.
  assert (Hw : where_sku_until sku d p = false).
  { unfold where_sku_until. destruct Hp as [Hs|Hd].
    - apply String.eqb_neq in Hs. now rewrite Hs.
    - apply andb_false_iff. right. unfold String.ltb, String.leb in *.
      rewrite String.compare_antisym.
      destruct (String.compare d (Purchase.date p)); try discriminate Hd.
      reflexivity. }
  rewrite !get_avg_cost_until_eq, (selected_irrelevant l1 l2 p sku d Hw).
  reflexivity.
Qed.

Lemma get_avg_cost_until_ignores_others_witness :
  get_avg_cost_until
    ([compra_kettle_40] ++ Purchase.mk 2 "2024-03-25" "KETTLE" None 90 5 :: [])
    "KETTLE" "2024-03-20"
  = get_avg_cost_until ([compra_kettle_40] ++ []) "KETTLE" "2024-03-20".
Proof.
  apply get_avg_cost_until_ignores_others. right. reflexivity.
Defined.





(** ** Sessions: what the tables hold after any sequence of actions *)

Section Sessions.

Lemma executa_invariant (P : db -> Prop) (ok : acao -> Prop) :
  (forall st a, ok a -> P st -> P (passo st a)) ->
  forall l st, Forall ok l -> P st -> P (executa st l).
Proof.
  intros Hstep l. induction l as [|a l IH]; intros st Hok HP; [exact HP|].
  simpl. inversion Hok; subst. apply IH; [assumption|]. now apply Hstep.
Qed.

Lemma executa_app (st : db) (l1 l2 : list acao) :
  executa st (l1 ++ l2) = executa (executa st l1) l2.
Proof.
  unfold executa. apply fold_left_app.
Qed.

Context {A : Type}.
Variable id : A -> Z.

Lemma max_id_ge (l : list A) (r : A) : In r l -> (id r <= max_id id l)%Z.
Proof.
  induction l as [|x l IH]; simpl; [intros []|intros [<-|Hr]]; [lia|].
  specialize (IH Hr). lia.
Qed.

Lemma max_id_le (l : list A) (s : Z) :
  (0 <= s)%Z -> Forall (fun r => (1 <= id r <= s)%Z) l -> (max_id id l <= s)%Z.
Proof.
  intros Hs Hb. induction Hb as [|x l Hx _ IH]; simpl; lia.
Qed.

Lemma next_id_fresh (t : table A) (r : A) :
  In r (rows t) -> (id r < next_id id t)%Z.
Proof.
  intro Hr. pose proof (max_id_ge _ _ Hr). unfold next_id. lia.
Qed.

Lemma next_id_ids_ok (t : table A) :
  ids_ok id t -> next_id id t = (seq t + 1)%Z.
Proof.
  intros (_ & Hb & Hs). unfold next_id.
  pose proof (max_id_le _ _ Hs Hb). lia.
Qed.

Lemma insert_row_ids_ok (mkrow : Z -> A) (t : table A) :
  (forall i, id (mkrow i) = i) ->
  ids_ok id t -> ids_ok id (insert_row id mkrow t).
Proof.
  intros Hmk (Hnd & Hb & Hs). unfold ids_ok, insert_row. simpl.
  split; [|split].
  - rewrite map_app. simpl. rewrite Hmk.
    apply NoDup_app; [exact Hnd | repeat constructor; intros [] |].
    intros i Hi [<-|[]]. apply in_map_iff in Hi. destruct Hi as (r & Hr & Hin).
    pose proof (next_id_fresh t r Hin). lia.
  - apply Forall_app. split.
    + apply Forall_forall. intros r Hr.
      pose proof (next_id_fresh t r Hr).
      rewrite Forall_forall in Hb. specialize (Hb r Hr). lia.
    + repeat constructor; rewrite Hmk; unfold next_id; lia.
  - unfold next_id. lia.
Qed.

Lemma delete_row_ids_ok (del_id : Z) (t : table A) :
  ids_ok id t -> ids_ok id (delete_row id del_id t).
Proof.
  intros (Hnd & Hb & Hs). unfold ids_ok, delete_row. simpl.
  split; [|split; [|exact Hs]].
  - clear Hb. induction (rows t) as [|x l IH]; simpl; [constructor|].
    inversion Hnd; subst.
    destruct (negb (id x =? del_id)%Z); simpl; [|now apply IH].
    constructor; [|now apply IH].
    intro Hin. apply H1. apply in_map_iff in Hin.
    destruct Hin as (r & Hr & Hin). apply filter_In in Hin.
    apply in_map_iff. exists r. tauto.
  - apply Forall_forall. intros r Hr. apply filter_In in Hr.
    rewrite Forall_forall in Hb. now apply Hb.
Qed.

End Sessions.

Lemma passo_ids_ok (st : db) (a : acao) :
  ids_ok Purchase.id (purchases st) /\ ids_ok Sale.id (sales st) ->
  ids_ok Purchase.id (purchases (passo st a))
  /\ ids_ok Sale.id (sales (passo st a)).
Proof.
  intros [Hp Hs]. destruct a as [f|del_id|f|del_id]; simpl.
  - unfold salvar_compra.
    destruct (FormCompras.sku f =? "")%string; [now split|].
    destruct (Qle_bool (FormCompras.custo_unit f) 0); [now split|].
    simpl. split; [|exact Hs]. now apply insert_row_ids_ok.
  - split; [now apply delete_row_ids_ok | exact Hs].
  - unfold salvar_venda.
    destruct (FormVendas.sku_v f =? "")%string; [now split|].
    destruct (Qle_bool (FormVendas.preco_unit f) 0); [now split|].
    simpl. split; [exact Hp|]. now apply insert_row_ids_ok.
  - split; [exact Hp | now apply delete_row_ids_ok].
Qed.

Lemma init_db_ids_ok :
  ids_ok Purchase.id (purchases init_db) /\ ids_ok Sale.id (sales init_db).
Proof.
  split; (split; [constructor | split; [constructor | simpl; lia]]).
Qed.

Lemma executa_ids_ok (l : list acao) :
  ids_ok Purchase.id (purchases (executa init_db l))
  /\ ids_ok Sale.id (sales (executa init_db l)).
Proof.
  apply (executa_invariant
           (fun st => ids_ok Purchase.id (purchases st)
                      /\ ids_ok Sale.id (sales st))
           (fun _ => True)).
  - intros st a _. apply passo_ids_ok.
  - apply Forall_forall. trivial.
  - apply init_db_ids_ok.
Qed.

(** The counters only grow. *)
Lemma passo_seq (st : db) (a : acao) :
  (seq (purchases st) <= seq (purchases (passo st a)))%Z
  /\ (seq (sales st) <= seq (sales (passo st a)))%Z.
Proof.
  destruct a as [f|del_id|f|del_id]; simpl; try lia.
  - unfold salvar_compra.
    destruct (FormCompras.sku f =? "")%string; [simpl; lia|].
    destruct (Qle_bool (FormCompras.custo_unit f) 0); simpl; [lia|].
    unfold next_id. lia.
  - unfold salvar_venda.
    destruct (FormVendas.sku_v f =? "")%string; [simpl; lia|].
    destruct (Qle_bool (FormVendas.preco_unit f) 0); simpl; [lia|].
    unfold next_id. lia.
Qed.

Lemma executa_seq (l : list acao) (st : db) :
  (seq (purchases st) <= seq (purchases (executa st l)))%Z
  /\ (seq (sales st) <= seq (sales (executa st l)))%Z.
Proof.
  revert st. induction l as [|a l IH]; intro st; simpl; [lia|].
  pose proof (passo_seq st a). pose proof (IH (passo st a)). lia.
Qed.

(** X9. Whatever the session, starting from the empty database: in each
    table the identifiers are distinct and positive, and none exceeds the
    counter of the table. *)
Theorem session_identifiers_unique (l : list acao) :
  NoDup (map Purchase.id (rows (purchases (executa init_db l))))
  /\ NoDup (map Sale.id (rows (sales (executa init_db l))))
  /\ Forall (fun r => (1 <= Purchase.id r
                       <= seq (purchases (executa init_db l)))%Z)
            (rows (purchases (executa init_db l)))
  /\ Forall (fun r => (1 <= Sale.id r <= seq (sales (executa init_db l)))%Z)
            (rows (sales (executa init_db l))).
Proof.
  destruct (executa_ids_ok l) as [(Hp1 & Hp2 & _) (Hs1 & Hs2 & _)].
  repeat split; assumption.
Qed.

(** X10. Identifiers are not given twice.  A purchase saved at the end of a
    session gets the counter plus one, which is greater than the
    identifier of every purchase the table held at any earlier moment of
    the session, deleted since or not; and so for sales. *)
Theorem session_identifiers_never_reused :
  (forall (l0 l1 : list acao) (f : FormCompras.t) (r : Purchase.row),
      FormCompras.sku f <> ""%string -> 0 < FormCompras.custo_unit f ->
      In r (rows (purchases (executa init_db l0))) ->
      exists row,
        rows (purchases (executa init_db (l0 ++ l1 ++ [SalvarCompra f])))
        = rows (purchases (executa init_db (l0 ++ l1))) ++ [row]
        /\ Purchase.id row
           = (seq (purchases (executa init_db (l0 ++ l1))) + 1)%Z
        /\ (Purchase.id r < Purchase.id row)%Z)
  /\ (forall (l0 l1 : list acao) (f : FormVendas.t) (r : Sale.row),
         FormVendas.sku_v f <> ""%string -> 0 < FormVendas.preco_unit f ->
         In r (rows (sales (executa init_db l0))) ->
         exists row,
           rows (sales (executa init_db (l0 ++ l1 ++ [SalvarVenda f])))
           = rows (sales (executa init_db (l0 ++ l1))) ++ [row]
           /\ Sale.id row = (seq (sales (executa init_db (l0 ++ l1))) + 1)%Z
           /\ (Sale.id r < Sale.id row)%Z).
Proof.
  split; intros l0 l1 f r Hs Hc Hr.
  - rewrite app_assoc, (executa_app _ (l0 ++ l1)). simpl.
    destruct (executa_ids_ok (l0 ++ l1)) as [Hok _].
    destruct (executa_ids_ok l0) as [(_ & Hb & _) _].
    rewrite Forall_forall in Hb. specialize (Hb r Hr).
    pose proof (executa_seq l1 (executa init_db l0)) as [Hseq _].
    rewrite <- executa_app in Hseq.
    unfold salvar_compra, insert_row.
    apply String.eqb_neq in Hs. rewrite Hs.
    apply Qle_bool_false in Hc. rewrite Hc.
    eexists. split; [reflexivity|]. simpl.
    rewrite (next_id_ids_ok _ _ Hok). split; [reflexivity | lia].
  - rewrite app_assoc, (executa_app _ (l0 ++ l1)). simpl.
    destruct (executa_ids_ok (l0 ++ l1)) as [_ Hok].
    destruct (executa_ids_ok l0) as [_ (_ & Hb & _)].
    rewrite Forall_forall in Hb. specialize (Hb r Hr).
    pose proof (executa_seq l1 (executa init_db l0)) as [_ Hseq].
    rewrite <- executa_app in Hseq.
    unfold salvar_venda, insert_row.
    apply String.eqb_neq in Hs. rewrite Hs.
    apply Qle_bool_false in Hc. rewrite Hc.
    eexists. split; [reflexivity|]. simpl.
    rewrite (next_id_ids_ok _ _ Hok). split; [reflexivity | lia].
Qed.

Lemma session_identifiers_never_reused_witness :
  exists row,
    rows (purchases
            (executa init_db
               ([SalvarCompra form_compra_kettle]
                ++ [ExcluirCompra 1] ++ [SalvarCompra form_compra_kettle])))
    = rows (purchases
              (executa init_db
                 ([SalvarCompra form_compra_kettle] ++ [ExcluirCompra 1])))
      ++ [row]
    /\ Purchase.id row = 2%Z.
Proof.
  destruct (proj1 session_identifiers_never_reused
              [SalvarCompra form_compra_kettle] [ExcluirCompra 1]
              form_compra_kettle
              (Purchase.mk 1 "2024-03-10" "KETTLE" (Some "Chaleira"%string)
                           40 2))
    as (row & Hrows & Hid & _).
  - discriminate.
  - reflexivity.
  - left. reflexivity.
  - exists row. split; [exact Hrows | exact Hid].
Defined.

Lemma passo_rows_ok (st : db) (a : acao) :
  acao_ok a ->
  Forall purchase_ok (rows (purchases st))
  /\ Forall sale_ok (rows (sales st)) ->
  Forall purchase_ok (rows (purchases (passo st a)))
  /\ Forall sale_ok (rows (sales (passo st a))).
Proof.
  intros Hok [Hp Hs]. destruct a as [f|del_id|f|del_id]; simpl.
  - unfold salvar_compra.
    destruct (FormCompras.sku f =? "")%string; [now split|].
    destruct (Qle_bool (FormCompras.custo_unit f) 0) eqn:Ec; [now split|].
    simpl. split; [|exact Hs]. apply Forall_app. split; [exact Hp|].
    destruct Hok as [[_ Hq] Hd]. constructor; [|constructor].
    unfold purchase_ok. simpl. split; [|split; [|split; [|split]]].
    + apply Qnot_le_lt. intro Hle. apply Qle_bool_iff in Hle. congruence.
    + exact Hq.
    + now exists (FormCompras.d f).
    + discriminate.
    + apply strip_idem.
  - split; [|exact Hs]. apply Forall_forall. intros r Hr.
    apply filter_In in Hr. rewrite Forall_forall in Hp. now apply Hp.
  - unfold salvar_venda.
    destruct (FormVendas.sku_v f =? "")%string; [now split|].
    destruct (Qle_bool (FormVendas.preco_unit f) 0) eqn:Ec; [now split|].
    simpl. split; [exact Hp|]. apply Forall_app. split; [exact Hs|].
    destruct Hok as [(_ & Hq & Hm) Hd]. constructor; [|constructor].
    unfold sale_ok. simpl. split; [|split; [|split; [|split; [|split]]]].
    + apply Qnot_le_lt. intro Hle. apply Qle_bool_iff in Hle. congruence.
    + exact Hq.
    + now exists (FormVendas.d f).
    + discriminate.
    + apply strip_idem.
    + simpl in Hm. destruct Hm as [<-|[<-|[<-|[]]]]; auto.
  - split; [exact Hp|]. apply Forall_forall. intros r Hr.
    apply filter_In in Hr. rewrite Forall_forall in Hs. now apply Hs.
Qed.

Lemma executa_rows_ok (l : list acao) :
  Forall acao_ok l ->
  Forall purchase_ok (rows (purchases (executa init_db l)))
  /\ Forall sale_ok (rows (sales (executa init_db l))).
Proof.
  intro Hok.
  apply (executa_invariant
           (fun st => Forall purchase_ok (rows (purchases st))
                      /\ Forall sale_ok (rows (sales st)))
           acao_ok passo_rows_ok l init_db Hok).
  split; constructor.
Qed.

(** X11. When every form of a session is within the ranges of its widgets
    and carries a date Python can build, every stored purchase has a
    positive unit cost, a quantity of at least 1, an ISO date, a name that
    is not NULL and a stripped product code, and every stored sale has
    the same with its unit price and one of the three marketplaces. *)
Theorem session_rows_well_formed (l : list acao) :
  Forall acao_ok l ->
  (forall r, In r (rows (purchases (executa init_db l))) ->
             0 < Purchase.unit_cost r
             /\ (1 <= Purchase.quantity r)%Z
             /\ (exists d, valid_date d /\ Purchase.date r = iso d)
             /\ Purchase.name r <> None
             /\ strip (Purchase.sku r) = Purchase.sku r)
  /\ (forall r, In r (rows (sales (executa init_db l))) ->
                0 < Sale.unit_price r
                /\ (1 <= Sale.quantity r)%Z
                /\ (exists d, valid_date d /\ Sale.date r = iso d)
                /\ Sale.name r <> None
                /\ strip (Sale.sku r) = Sale.sku r
                /\ In (Sale.marketplace r)
                      [Some "Shopee"; Some "Mercado Livre"; Some "Outros"]%string).
Proof.
  intro Hok. destruct (executa_rows_ok l Hok) as [Hp Hs].
  rewrite Forall_forall in Hp, Hs. split; intros r Hr.
  - exact (Hp r Hr).
  - exact (Hs r Hr).
Qed.

Lemma sessao_kettle_ok : Forall acao_ok sessao_kettle.
Proof.
  unfold sessao_kettle, acao_ok, FormCompras.in_range, FormVendas.in_range,
    valid_date.
  repeat constructor; simpl; try lia; try discriminate; auto.
Defined.

Lemma session_rows_well_formed_witness :
  Forall (fun r => 0 < Sale.unit_price r /\ (1 <= Sale.quantity r)%Z)
         (rows (sales (executa init_db sessao_kettle))).
Proof.
  apply Forall_forall. intros r Hr.
  destruct (proj2 (session_rows_well_formed sessao_kettle sessao_kettle_ok) r Hr)
    as (Hp & Hq & _).
  split; assumption.
Defined.

Section Positive.

Variable l : list Purchase.row.
Hypothesis l_ok : forall r, In r l -> 0 < Purchase.unit_cost r
                                      /\ (1 <= Purchase.quantity r)%Z.

Lemma sum_qty_pos : l <> [] -> (0 < sum_qty l)%Z.
Proof.
  induction l as [|r t IH]; [congruence|]. intros _.
  unfold sum_qty in *. simpl.
  assert (1 <= Purchase.quantity r)%Z by (apply l_ok; now left).
  destruct t as [|r' t']; [simpl; lia|].
  assert (0 < total_int (map Purchase.quantity (r' :: t')))%Z.
  { apply IH; [|discriminate]. intros y Hy. apply l_ok. now right. }
  lia.
Qed.

Lemma sum_cost_qty_pos : l <> [] -> 0 < sum_cost_qty l.
Proof.
  induction l as [|r t IH]; [congruence|]. intros _.
  unfold sum_cost_qty in *. simpl.
  destruct (l_ok r (or_introl eq_refl)) as [Hc Hq].
  assert (Hrq : 0 < Purchase.unit_cost r * inject_Z (Purchase.quantity r)).
  { apply Qmult_lt_0_compat; [exact Hc|].
    change 0 with (inject_Z 0). rewrite <- Zlt_Qlt. lia. }
  destruct t as [|r' t'].
  - simpl. lra.
  - assert (0 < total
                  (map (fun r0 => Purchase.unit_cost r0
                                  * inject_Z (Purchase.quantity r0))
                       (r' :: t'))).
    { apply IH; [|discriminate]. intros y Hy. apply l_ok. now right. }
    lra.
Qed.

End Positive.

Lemma get_avg_cost_until_positive (ps : list Purchase.row) (sku d : string) :
  (forall r, In r ps -> 0 < Purchase.unit_cost r
                        /\ (1 <= Purchase.quantity r)%Z) ->
  (get_avg_cost_until ps sku d = None <-> selected ps sku d = [])
  /\ (forall a, get_avg_cost_until ps sku d = Some a -> 0 < a).
Proof.
  intro Hok.
  assert (Hsel : forall r, In r (selected ps sku d) ->
                           0 < Purchase.unit_cost r
                           /\ (1 <= Purchase.quantity r)%Z).
  { intros r Hr. apply Hok. now apply selected_In in Hr. }
  rewrite get_avg_cost_until_ratio.
  destruct (selected ps sku d) as [|r t] eqn:E.
  - split; [split; reflexivity | discriminate].
  - assert (HT : (0 < sum_qty (r :: t))%Z)
      by (apply sum_qty_pos; [exact Hsel | discriminate]).
    assert (HS : 0 < sum_cost_qty (r :: t))
      by (apply sum_cost_qty_pos; [exact Hsel | discriminate]).
    destruct (sum_qty (r :: t) =? 0)%Z eqn:Ez; [apply Z.eqb_eq in Ez; lia|].
    split; [split; discriminate|].
    intros a Ha. injection Ha as <-.
    apply Qlt_shift_div_l.
    + change 0 with (inject_Z 0). now rewrite <- Zlt_Qlt.
    + lra.
Qed.

(** X12. After such a session the average cost is missing only when no
    purchase of the product code is dated on or before the reference
    date (a total quantity of zero cannot occur), and an average that
    exists is positive. *)
Theorem session_average_cost (l : list acao) (sku d : string) :
  Forall acao_ok l ->
  (get_avg_cost_until (rows (purchases (executa init_db l))) sku d = None
   <-> forall r, In r (rows (purchases (executa init_db l))) ->
                 Purchase.sku r = sku ->
                 String.leb (Purchase.date r) d = false)
  /\ (forall a,
         get_avg_cost_until (rows (purchases (executa init_db l))) sku d
         = Some a ->
         0 < a).
Proof.
  intro Hok. destruct (executa_rows_ok l Hok) as [Hp _].
  rewrite Forall_forall in Hp.
  destruct (get_avg_cost_until_positive
              (rows (purchases (executa init_db l))) sku d) as [Hnone Hpos].
  { intros r Hr. destruct (Hp r Hr) as (? & ? & _). now split. }
  split; [|exact Hpos].
  rewrite Hnone. split.
  - intros Hnil r Hr Hsku.
    destruct (String.leb (Purchase.date r) d) eqn:E; [|reflexivity].
    assert (Hin : In r (selected (rows (purchases (executa init_db l))) sku d))
      by (apply selected_In; auto).
    rewrite Hnil in Hin. destruct Hin.
  - intro Hall.
    destruct (selected (rows (purchases (executa init_db l))) sku d)
      as [|r t] eqn:E; [reflexivity|].
    assert (Hin : In r (selected (rows (purchases (executa init_db l))) sku d))
      by (rewrite E; now left).
    apply selected_In in Hin. destruct Hin as (Hr & Hsku & Hd).
    rewrite (Hall r Hr Hsku) in Hd. discriminate Hd.
Qed.

Lemma session_average_cost_witness :
  exists a,
    get_avg_cost_until (rows (purchases (executa init_db sessao_kettle)))
                       "KETTLE" "2024-03-20" = Some a
    /\ 0 < a.
Proof.
  exists (80 * 1.0 / 2). split; [reflexivity|].
  apply (proj2 (session_average_cost sessao_kettle "KETTLE" "2024-03-20"
                                     sessao_kettle_ok)).
  reflexivity.
Defined.

(** ** Margins *)


Lemma aba3_Relatorio (nan_is_na : bool) (st : db) (ref_date : date)
      (mf : string) (df : list Lucro.row) (tot : totais) :
  aba3 nan_is_na st ref_date mf = Relatorio df tot ->
  df = tabela_lucro nan_is_na st
         (carrega_vendas st (iso (month_start ref_date))
                         (iso (next_month ref_date)) mf)
  /\ tot = indicadores df
  /\ df <> [].
Proof.
  unfold aba3. cbv zeta.
  destruct (carrega_vendas _ _ _ _) as [|r t]; [discriminate|].
  intro H. injection H as <- <-. repeat split. discriminate.
Qed.






(** ** The listings of the current month *)

Section Listing.

Context {A : Type}.
Variable date_of : A -> string.
Variable id_of : A -> Z.

Let desc (r1 r2 : A) : bool :=
  date_id_desc (date_of r1) (id_of r1) (date_of r2) (id_of r2).

Lemma date_id_desc_total (r1 r2 : A) : desc r1 r2 = true \/ desc r2 r1 = true.
Proof.
  unfold desc, date_id_desc, String.ltb.
  rewrite (String.compare_antisym (date_of r1) (date_of r2)).
  destruct (String.compare (date_of r2) (date_of r1)) eqn:E; simpl; auto.
  apply String.compare_eq_iff in E. rewrite E, String.eqb_refl. simpl.
  destruct (Z.leb_spec (id_of r2) (id_of r1)); [now left|].
  right. apply Z.leb_le. lia.
Qed.

Lemma listing_split (first_day last_day : string) (l : list A) :
  Permutation l
    (order_by desc (filter (fun r => between first_day last_day (date_of r)) l)
     ++ filter (fun r => negb (between first_day last_day (date_of r))) l)
  /\ Forall (fun r => between first_day last_day (date_of r) = true)
            (order_by desc
               (filter (fun r => between first_day last_day (date_of r)) l))
  /\ Forall (fun r => between first_day last_day (date_of r) = false)
            (filter (fun r => negb (between first_day last_day (date_of r))) l)
  /\ Sorted (fun r1 r2 => desc r1 r2 = true)
            (order_by desc
               (filter (fun r => between first_day last_day (date_of r)) l)).
Proof.
  split; [|split; [|split]].
  - rewrite order_by_perm. apply filter_split_perm.
  - apply Forall_forall. intros r Hr. apply order_by_In, filter_In in Hr. tauto.
  - apply Forall_forall. intros r Hr. apply filter_In in Hr.
    now apply negb_true_iff.
  - apply order_by_sorted. apply date_id_desc_total.
Qed.

(** With distinct identifiers, deleting the identifier of a row takes
    that row out and leaves the others in place. *)
Lemma filter_out_id (l1 l2 : list A) (r : A) :
  NoDup (map id_of (l1 ++ r :: l2)) ->
  filter (fun x => negb (id_of x =? id_of r)%Z) (l1 ++ r :: l2) = l1 ++ l2.
Proof.
  intro Hnd. rewrite map_app in Hnd. simpl in Hnd.
  pose proof (NoDup_remove_2 _ _ _ Hnd) as Hnot.
  rewrite filter_app. simpl. rewrite Z.eqb_refl. simpl.
  rewrite !filter_all; [reflexivity| |].
  - intros x Hx. apply negb_true_iff, Z.eqb_neq. intro E. apply Hnot.
    apply in_or_app. right. rewrite <- E. now apply in_map.
  - intros x Hx. apply negb_true_iff, Z.eqb_neq. intro E. apply Hnot.
    apply in_or_app. left. rewrite <- E. now apply in_map.
Qed.

End Listing.

(** X15. The listing of purchases of the current month shows each stored
    purchase dated in the month of today once and no other, the latest
    date first and, within a date, the greatest identifier first; its
    column of totals is unit cost times quantity. *)
Theorem compras_do_mes_listing (st : db) (today : date) :
  valid_date today ->
  (year today < 9999 \/ month today < 12)%Z ->
  exists shown others,
    compras_do_mes st today = map Compra.select shown
    /\ Permutation (rows (purchases st)) (shown ++ others)
    /\ (forall r d, In r shown -> valid_date d -> Purchase.date r = iso d ->
                    same_month d today)
    /\ (forall r d, In r others -> valid_date d -> Purchase.date r = iso d ->
                    ~ same_month d today)
    /\ Sorted (fun r1 r2 =>
                 date_id_desc (Purchase.date r1) (Purchase.id r1)
                              (Purchase.date r2) (Purchase.id r2) = true)
              shown
    /\ Forall (fun row =>
                 Compra.total_compra row
                 == Compra.custo_unit row * inject_Z (Compra.qtd row))
              (compras_do_mes st today).
Proof.
  intros Hv Hlast.
  assert (Hn : valid_date (next_month today)).
  { destruct Hv as (? & ? & ?). unfold valid_date, next_month. simpl.
    destruct (month today =? 12)%Z eqn:E;
      [apply Z.eqb_eq in E | apply Z.eqb_neq in E]; lia. }
  destruct (listing_split Purchase.date Purchase.id
              (iso (month_start today)) (iso (next_month today))
              (rows (purchases st))) as (Hperm & Hin & Hout & Hsort).
  eexists. eexists. split; [reflexivity|].
  split; [exact Hperm|]. rewrite Forall_forall in Hin, Hout.
  split; [|split; [|split; [exact Hsort|]]].
  - intros r d Hr Hd E. specialize (Hin r Hr). rewrite E in Hin.
    now apply between_month in Hin.
  - intros r d Hr Hd E Hsame. specialize (Hout r Hr). rewrite E in Hout.
    apply (between_month today d Hv Hn Hd) in Hsame. congruence.
  - apply Forall_forall. intros row Hrow. unfold compras_do_mes in Hrow.
    apply in_map_iff in Hrow. destruct Hrow as (r & <- & _). reflexivity.
Qed.

Lemma compras_do_mes_listing_witness :
  exists shown others,
    compras_do_mes db_kettle d_2024_03_20 = map Compra.select shown
    /\ Permutation (rows (purchases db_kettle)) (shown ++ others).
Proof.
  destruct (compras_do_mes_listing db_kettle d_2024_03_20)
    as (shown & others & Hl & Hp & _).
  - unfold valid_date. simpl. lia.
  - left. simpl. lia.
  - exists shown, others. split; assumption.
Defined.

(** X16. The listing of sales of the current month shows each stored sale
    dated in the month of today once and no other, in the same order, and
    its revenue column is unit price times quantity. *)
Theorem vendas_do_mes_listing (st : db) (today : date) :
  valid_date today ->
  (year today < 9999 \/ month today < 12)%Z ->
  exists shown others,
    vendas_do_mes st today = map Venda.select shown
    /\ Permutation (rows (sales st)) (shown ++ others)
    /\ (forall r d, In r shown -> valid_date d -> Sale.date r = iso d ->
                    same_month d today)
    /\ (forall r d, In r others -> valid_date d -> Sale.date r = iso d ->
                    ~ same_month d today)
    /\ Sorted (fun r1 r2 =>
                 date_id_desc (Sale.date r1) (Sale.id r1)
                              (Sale.date r2) (Sale.id r2) = true)
              shown
    /\ Forall (fun row =>
                 Venda.faturamento row
                 == Venda.preco_unit row * inject_Z (Venda.qtd row))
              (vendas_do_mes st today).
Proof.
  intros Hv Hlast.
  assert (Hn : valid_date (next_month today)).
  { destruct Hv as (? & ? & ?). unfold valid_date, next_month. simpl.
    destruct (month today =? 12)%Z eqn:E;
      [apply Z.eqb_eq in E | apply Z.eqb_neq in E]; lia. }
  destruct (listing_split Sale.date Sale.id
              (iso (month_start today)) (iso (next_month today))
              (rows (sales st))) as (Hperm & Hin & Hout & Hsort).
  eexists. eexists. split; [reflexivity|].
  split; [exact Hperm|]. rewrite Forall_forall in Hin, Hout.
  split; [|split; [|split; [exact Hsort|]]].
  - intros r d Hr Hd E. specialize (Hin r Hr). rewrite E in Hin.
    now apply between_month in Hin.
  - intros r d Hr Hd E Hsame. specialize (Hout r Hr). rewrite E in Hout.
    apply (between_month today d Hv Hn Hd) in Hsame. congruence.
  - apply Forall_forall. intros row Hrow. unfold vendas_do_mes in Hrow.
    apply in_map_iff in Hrow. destruct Hrow as (r & <- & _). reflexivity.
Qed.

Lemma vendas_do_mes_listing_witness :
  exists shown others,
    vendas_do_mes db_kettle d_2024_03_20 = map Venda.select shown
    /\ Permutation (rows (sales db_kettle)) (shown ++ others).
Proof.
  destruct (vendas_do_mes_listing db_kettle d_2024_03_20)
    as (shown & others & Hl & Hp & _).
  - unfold valid_date. simpl. lia.
  - left. simpl. lia.
  - exists shown, others. split; assumption.
Defined.

(** ** Saving, listing and deleting *)

(** X17. A purchase that the form accepts is shown in the listing of the
    month of today exactly when its date is of that month; the row shown
    carries the new identifier, the ISO date, the stripped code and name,
    and the cost and the quantity as submitted. *)
Theorem saved_purchase_is_listed (st : db) (f : FormCompras.t) (today : date) :
  FormCompras.sku f <> ""%string ->
  0 < FormCompras.custo_unit f ->
  valid_date (FormCompras.d f) ->
  valid_date today ->
  (year today < 9999 \/ month today < 12)%Z ->
  In (Compra.mk (next_id Purchase.id (purchases st))
                (iso (FormCompras.d f))
                (strip (FormCompras.sku f))
                (strip (FormCompras.nome f))
                (FormCompras.custo_unit f)
                (FormCompras.qtd f)
                (FormCompras.custo_unit f * inject_Z (FormCompras.qtd f)))
     (compras_do_mes (fst (salvar_compra st f)) today)
  <-> same_month (FormCompras.d f) today.
Proof.
  intros Hs Hc Hd Hv Hlast.
  assert (Hn : valid_date (next_month today)).
  { destruct Hv as (? & ? & ?). unfold valid_date, next_month. simpl.
    destruct (month today =? 12)%Z eqn:E;
      [apply Z.eqb_eq in E | apply Z.eqb_neq in E]; lia. }
  unfold salvar_compra, insert_row.
  apply String.eqb_neq in Hs. rewrite Hs.
  apply Qle_bool_false in Hc. rewrite Hc.
  unfold compras_do_mes. cbn [fst purchases rows].
  rewrite in_map_iff. split.
  - intros (r & Hsel & Hr). apply order_by_In, filter_In in Hr.
    destruct Hr as [Hr Hb]. apply in_app_iff in Hr. destruct Hr as [Hr|[<-|[]]].
    + apply (next_id_fresh Purchase.id) in Hr.
      apply (f_equal Compra.id) in Hsel. simpl in Hsel. lia.
    + simpl in Hb. now apply between_month in Hb.
  - intro Hsame. eexists. split; [|apply order_by_In, filter_In; split].
    2:{ apply in_app_iff. right. left. reflexivity. }
    + reflexivity.
    + simpl. now apply between_month.
Qed.

Lemma saved_purchase_is_listed_witness :
  In (Compra.mk 1 "2024-03-10" "KETTLE" "Chaleira" 40 2 (40 * inject_Z 2))
     (compras_do_mes (fst (salvar_compra init_db form_compra_kettle))
                     d_2024_03_20).
Proof.
  apply (saved_purchase_is_listed init_db form_compra_kettle d_2024_03_20).
  - discriminate.
  - reflexivity.
  - unfold valid_date. simpl. lia.
  - unfold valid_date. simpl. lia.
  - left. simpl. lia.
  - split; reflexivity.
Defined.

(** X18. Saving a purchase or a sale and deleting it by the identifier it
    got gives back the rows the table had, in their order; only the
    counter has moved, to that identifier. *)
Theorem save_then_delete :
  (forall (st : db) (f : FormCompras.t),
      FormCompras.sku f <> ""%string -> 0 < FormCompras.custo_unit f ->
      rows (purchases
              (fst (excluir_compra (fst (salvar_compra st f))
                                   (next_id Purchase.id (purchases st)))))
      = rows (purchases st)
      /\ seq (purchases
                (fst (excluir_compra (fst (salvar_compra st f))
                                     (next_id Purchase.id (purchases st)))))
         = next_id Purchase.id (purchases st)
      /\ (seq (purchases st) < next_id Purchase.id (purchases st))%Z)
  /\ (forall (st : db) (f : FormVendas.t),
         FormVendas.sku_v f <> ""%string -> 0 < FormVendas.preco_unit f ->
         rows (sales
                 (fst (excluir_venda (fst (salvar_venda st f))
                                     (next_id Sale.id (sales st)))))
         = rows (sales st)
         /\ seq (sales
                   (fst (excluir_venda (fst (salvar_venda st f))
                                       (next_id Sale.id (sales st)))))
            = next_id Sale.id (sales st)
         /\ (seq (sales st) < next_id Sale.id (sales st))%Z).
Proof.
  split; intros st f Hs Hc.
  - unfold salvar_compra, insert_row, excluir_compra, delete_row.
    apply String.eqb_neq in Hs. rewrite Hs.
    apply Qle_bool_false in Hc. rewrite Hc.
    cbn [fst purchases rows seq]. split; [|split; [reflexivity|]].
    + rewrite filter_app. simpl. rewrite Z.eqb_refl. simpl.
      rewrite app_nil_r. apply filter_all. intros r Hr.
      apply negb_true_iff, Z.eqb_neq.
      pose proof (next_id_fresh Purchase.id _ _ Hr). lia.
    + unfold next_id. lia.
  - unfold salvar_venda, insert_row, excluir_venda, delete_row.
    apply String.eqb_neq in Hs. rewrite Hs.
    apply Qle_bool_false in Hc. rewrite Hc.
    cbn [fst sales rows seq]. split; [|split; [reflexivity|]].
    + rewrite filter_app. simpl. rewrite Z.eqb_refl. simpl.
      rewrite app_nil_r. apply filter_all. intros r Hr.
      apply negb_true_iff, Z.eqb_neq.
      pose proof (next_id_fresh Sale.id _ _ Hr). lia.
    + unfold next_id. lia.
Qed.

Lemma save_then_delete_witness :
  rows (purchases
          (fst (excluir_compra (fst (salvar_compra db_kettle form_compra_kettle))
                               (next_id Purchase.id (purchases db_kettle)))))
  = rows (purchases db_kettle).
Proof.
  apply (proj1 save_then_delete db_kettle form_compra_kettle).
  - discriminate.
  - reflexivity.
Defined.

(** X19. In a database built by a session, deleting the identifier of a
    stored row removes that row and only that row, and the rows that stay
    keep their order. *)
Theorem session_delete_removes_one :
  (forall (l : list acao) (l1 l2 : list Purchase.row) (r : Purchase.row),
      rows (purchases (executa init_db l)) = l1 ++ r :: l2 ->
      rows (purchases (fst (excluir_compra (executa init_db l) (Purchase.id r))))
      = l1 ++ l2)
  /\ (forall (l : list acao) (l1 l2 : list Sale.row) (r : Sale.row),
         rows (sales (executa init_db l)) = l1 ++ r :: l2 ->
         rows (sales (fst (excluir_venda (executa init_db l) (Sale.id r))))
         = l1 ++ l2).
Proof.
  split; intros l l1 l2 r Hrows.
  - destruct (executa_ids_ok l) as [(Hnd & _) _]. rewrite Hrows in Hnd.
    unfold excluir_compra, delete_row. cbn [fst purchases rows].
    rewrite Hrows. now apply filter_out_id.
  - destruct (executa_ids_ok l) as [_ (Hnd & _)]. rewrite Hrows in Hnd.
    unfold excluir_venda, delete_row. cbn [fst sales rows].
    rewrite Hrows. now apply filter_out_id.
Qed.

Lemma session_delete_removes_one_witness :
  rows (purchases
          (fst (excluir_compra (executa init_db sessao_kettle) 1)))
  = [] ++ [].
Proof.
  apply (proj1 session_delete_removes_one sessao_kettle [] []
               (Purchase.mk 1 "2024-03-10" "KETTLE" (Some "Chaleira"%string)
                            40 2)).
  reflexivity.
Defined.

(** ** The report, filter by filter *)

Section ReportSplit.

Variable h : Sale.row -> Q.
Variables start_iso end_iso : string.




End ReportSplit.



Lemma carrega_vendas_In_iff
  (st : db) (start_iso end_iso mf : string) (r : Sale.row) :
  In r (carrega_vendas st start_iso end_iso mf)
  <-> In r (rows (sales st)) /\ wanted start_iso end_iso mf r.
Proof.
  unfold carrega_vendas.
  destruct (mf =? "Todos")%string eqn:E.
  - apply String.eqb_eq in E. subst mf.
    rewrite order_by_In, filter_In, wanted_todos. reflexivity.
  - apply String.eqb_neq in E.
    rewrite order_by_In, filter_In, (wanted_marketplace _ _ _ _ E).
    reflexivity.
Qed.

(** X21. The report answers that the period has no sales exactly when no
    stored sale is dated in the month of the reference date with, unless
    the filter is ["Todos"], the marketplace of the filter; in every
    other case it is a table with one row per sale loaded. *)
Theorem aba3_empty_period
  (nan_is_na : bool) (st : db) (ref_date : date) (mf : string) :
  (aba3 nan_is_na st ref_date mf
   = SemVendas (info "Sem vendas no período selecionado.")
   <-> forall r, In r (rows (sales st)) ->
                 ~ wanted (iso (month_start ref_date))
                          (iso (next_month ref_date)) mf r)
  /\ (forall df tot,
         aba3 nan_is_na st ref_date mf = Relatorio df tot ->
         map Lucro.id df
         = map Sale.id (carrega_vendas st (iso (month_start ref_date))
                                       (iso (next_month ref_date)) mf)
         /\ df <> []).
Proof.
  split.
  - unfold aba3. cbv zeta.
    destruct (carrega_vendas st (iso (month_start ref_date))
                             (iso (next_month ref_date)) mf) as [|r t] eqn:E.
    + split; [|reflexivity]. intros _ r Hr Hw.
      assert (Hin : In r (carrega_vendas st (iso (month_start ref_date))
                                         (iso (next_month ref_date)) mf))
        by (apply carrega_vendas_In_iff; now split).
      rewrite E in Hin. destruct Hin.
    + split; [discriminate|]. intro Hnone. exfalso.
      assert (Hin : In r (carrega_vendas st (iso (month_start ref_date))
                                         (iso (next_month ref_date)) mf))
        by (rewrite E; now left).
      apply carrega_vendas_In_iff in Hin. destruct Hin as [Hr Hw].
      exact (Hnone r Hr Hw).
  - intros df tot Hrep. apply aba3_Relatorio in Hrep.
    destruct Hrep as (-> & _ & Hne). split; [apply tabela_lucro_ids | exact Hne].
Qed.

Lemma Sorted_map {A B : Type} (R : A -> A -> Prop) (R' : B -> B -> Prop)
      (f : A -> B) (l : list A) :
  (forall x y, R x y -> R' (f x) (f y)) -> Sorted R l -> Sorted R' (map f l).
Proof.
  intros HR. induction 1 as [|x l _ IH Hhd]; simpl; constructor; [exact IH|].
  destruct Hhd; simpl; constructor. now apply HR.
Qed.

(** X22. The rows of a report come in ascending order of their date
    column. *)
Theorem aba3_rows_by_date
  (nan_is_na : bool) (st : db) (ref_date : date) (mf : string)
  (df : list Lucro.row) (tot : totais) :
  aba3 nan_is_na st ref_date mf = Relatorio df tot ->
  Sorted (fun a b => String.leb (Lucro.data a) (Lucro.data b) = true) df.
Proof.
  intro Hrep. apply aba3_Relatorio in Hrep. destruct Hrep as (-> & _ & _).
  unfold tabela_lucro.
  apply (Sorted_map
           (fun r1 r2 => String.leb (Sale.date r1) (Sale.date r2) = true)).
  - intros x y Hxy. exact Hxy.
  - apply carrega_vendas_sorted.
Qed.

Lemma aba3_rows_by_date_witness :
  exists df tot,
    aba3 true db_brinde d_2024_03_20 "Todos" = Relatorio df tot
    /\ Sorted (fun a b => String.leb (Lucro.data a) (Lucro.data b) = true) df.
Proof.
  eexists. eexists. split; [vm_compute; reflexivity|].
  eapply (aba3_rows_by_date true db_brinde d_2024_03_20 "Todos").
  vm_compute. reflexivity.
Defined.
